(** * Shallow embedding of the coinbase-bot backtesting core

    Sources: src/core/portfolio.py (Position, Portfolio),
    src/backtesting/engine.py (BacktestEngine), src/strategies/base.py
    (TradingSignal, BaseStrategy defaults), src/utils/exceptions.py.

    Modelling choices:
    - Python floats are modelled as exact rationals [Q] (no rounding); the
      square root used by the volatility and Sharpe metrics is the real
      square root, so those two metrics live in [R].
    - Timestamps ([datetime]) are integers [Z] (seconds).
    - A Python exception is an [Err] of the small state/exception monad [M]
      below. As in Python, the mutations performed before a [raise] persist:
      the state is returned together with the error.
    - [datetime.now()] is an input: the ledger operations that read the clock
      take it as an explicit argument [now]. *)

From Stdlib Require Import QArith Qabs Reals Lia Lra Lqa.
From stdpp Require Import base gmap strings list.

Open Scope Q_scope.

(** ** Exceptions (src/utils/exceptions.py) *)

Inductive Exn :=
  | InsufficientFundsError   (* subclass of TradingError *)
  | TradingError             (* the position-size limit raises TradingError *)
  | ZeroDivisionError        (* Python float division by zero *)
  | KeyError                 (* dict lookup of a missing key *)
  | BacktestError            (* subclass of TradingError *)
  | StrategyException.       (* anything raised inside a strategy call *)

(** [isinstance(e, TradingError)] *)
Definition is_trading_error (e : Exn) : bool :=
  match e with
  | InsufficientFundsError | TradingError | BacktestError => true
  | _ => false
  end.

Inductive Result (A : Type) :=
  | Ok (a : A)
  | Err (e : Exn).
Arguments Ok {A} a.
Arguments Err {A} e.

(** ** Position (portfolio.py, dataclass Position) *)

Inductive Side := BUY | SELL.

Global Instance Side_eq_dec : EqDecision Side.
Proof. solve_decision. Defined.

Record Position := mkPosition {
  product_id : string;
  side : Side;
  quantity : Q;
  entry_price : Q;
  entry_time : Z;
  current_price : option Q;
  unrealized_pnl : option Q;
  realized_pnl : Q
}.

(** [Position(product_id=..., side=..., quantity=..., entry_price=...,
    entry_time=...)] with the dataclass defaults. *)
Definition new_Position (pid : string) (s : Side) (q p : Q) (t : Z) : Position :=
  mkPosition pid s q p t None None 0.

Definition set_quantity (pos : Position) (q : Q) : Position :=
  mkPosition pos.(product_id) pos.(side) q pos.(entry_price) pos.(entry_time)
             pos.(current_price) pos.(unrealized_pnl) pos.(realized_pnl).

Definition set_entry_price (pos : Position) (p : Q) : Position :=
  mkPosition pos.(product_id) pos.(side) pos.(quantity) p pos.(entry_time)
             pos.(current_price) pos.(unrealized_pnl) pos.(realized_pnl).

Definition set_realized_pnl (pos : Position) (r : Q) : Position :=
  mkPosition pos.(product_id) pos.(side) pos.(quantity) pos.(entry_price)
             pos.(entry_time) pos.(current_price) pos.(unrealized_pnl) r.

(** [Position.update_current_price] *)
Definition update_current_price (pos : Position) (price : Q) : Position :=
  mkPosition pos.(product_id) pos.(side) pos.(quantity) pos.(entry_price)
             pos.(entry_time) (Some price)
             (Some (match pos.(side) with
                    | BUY => (price - pos.(entry_price)) * pos.(quantity)
                    | SELL => (pos.(entry_price) - price) * pos.(quantity)
                    end))
             pos.(realized_pnl).

(** [Position.get_market_value] *)
Definition get_market_value (pos : Position) : Q :=
  match pos.(current_price) with
  | None => pos.(entry_price) * pos.(quantity)
  | Some c => c * pos.(quantity)
  end.

(** ** Trade records (the dict built by [Portfolio._record_trade]) *)

Record TradeRecord := mkTradeRecord {
  tr_product_id : string;
  tr_side : Side;
  tr_quantity : Q;
  tr_entry_price : Q;
  tr_exit_price : Q;
  tr_entry_time : Z;
  tr_exit_time : Z;
  tr_pnl : Q;
  tr_return_pct : Q
}.

(** ** Portfolio (portfolio.py, class Portfolio)

    [daily_returns] and [portfolio_values] are never appended to by the
    code, only cleared by [reset]; they are left out. [max_portfolio_risk]
    is never read and is left out as well. *)

Record Portfolio := mkPortfolio {
  initial_capital : Q;
  cash_balance : Q;
  positions : gmap string Position;
  trade_history : list TradeRecord;
  max_position_size : Q
}.

(** [Portfolio(initial_capital, config)]; without a config the position
    limit is 1000.0, and [TradingConfig.max_position_size] also defaults to
    1000.0. *)
Definition new_Portfolio (initial : Q) (max_size : Q) : Portfolio :=
  mkPortfolio initial initial ∅ [] max_size.

Definition default_max_position_size : Q := 1000.

Definition set_cash (pf : Portfolio) (c : Q) : Portfolio :=
  mkPortfolio pf.(initial_capital) c pf.(positions) pf.(trade_history)
              pf.(max_position_size).

Definition set_positions (pf : Portfolio) (ps : gmap string Position) : Portfolio :=
  mkPortfolio pf.(initial_capital) pf.(cash_balance) ps pf.(trade_history)
              pf.(max_position_size).

Definition set_history (pf : Portfolio) (h : list TradeRecord) : Portfolio :=
  mkPortfolio pf.(initial_capital) pf.(cash_balance) pf.(positions) h
              pf.(max_position_size).

(** ** The state/exception monad of the ledger *)

Definition M (A : Type) : Type := Portfolio -> Result A * Portfolio.

Global Instance M_ret : MRet M := fun A a s => (Ok a, s).
Global Instance M_bind : MBind M := fun A B f m s =>
  match m s with
  | (Ok a, s') => f a s'
  | (Err e, s') => (Err e, s')
  end.

Definition raise {A} (e : Exn) : M A := fun s => (Err e, s).
Definition get_state : M Portfolio := fun s => (Ok s, s).
Definition modify (f : Portfolio -> Portfolio) : M unit := fun s => (Ok tt, f s).

(** [try: m except Exception: h e] *)
Definition catch {A} (m : M A) (h : Exn -> M A) : M A := fun s =>
  match m s with
  | (Err e, s') => h e s'
  | r => r
  end.

(** Python comparisons on numbers *)
Definition Qgtb (x y : Q) : bool := negb (Qle_bool x y).
Definition Qltb (x y : Q) : bool := negb (Qle_bool y x).

(** Python float division, raising on a zero divisor *)
Definition pydiv (x y : Q) : M Q :=
  if Qeq_bool y 0 then raise ZeroDivisionError else mret (x / y).

(** ** Ledger operations (class Portfolio) *)

(** [Portfolio.get_total_invested]: sum of the market values of the open
    positions. *)
Definition get_total_invested (pf : Portfolio) : Q :=
  map_fold (fun _ pos acc => get_market_value pos + acc) 0 pf.(positions).

(** [Portfolio.get_total_value] *)
Definition get_total_value (pf : Portfolio) : Q :=
  pf.(cash_balance) + get_total_invested pf.

(** [Portfolio.get_position] *)
Definition get_position (pf : Portfolio) (pid : string) : option Position :=
  pf.(positions) !! pid.

(** [Portfolio._calculate_pnl] *)
Definition calculate_pnl (pos : Position) (exit_price qty : Q) : Q :=
  match pos.(side) with
  | BUY => (exit_price - pos.(entry_price)) * qty
  | SELL => (pos.(entry_price) - exit_price) * qty
  end.

(** [Portfolio._record_trade]; [exit_time] is [datetime.now()], here [now].
    The return percentage divides by [entry_price * quantity]. *)
Definition record_trade (pos : Position) (exit_price qty pnl : Q) (now : Z) : M unit :=
  r ← pydiv pnl (pos.(entry_price) * qty);
  modify (fun pf => set_history pf (pf.(trade_history) ++
    [mkTradeRecord pos.(product_id) pos.(side) qty pos.(entry_price) exit_price
                   pos.(entry_time) now pnl (r * 100)])).

Definition add_cash (d : Q) : M unit :=
  modify (fun pf => set_cash pf (pf.(cash_balance) + d)).

Definition put_position (pid : string) (pos : Position) : M unit :=
  modify (fun pf => set_positions pf (<[pid := pos]> pf.(positions))).

Definition del_position (pid : string) : M unit :=
  modify (fun pf => set_positions pf (delete pid pf.(positions))).

(** [return self.positions[product_id]]: raises [KeyError] when the key was
    deleted. *)
Definition index_position (pid : string) : M Position := fun pf =>
  match pf.(positions) !! pid with
  | Some pos => (Ok pos, pf)
  | None => (Err KeyError, pf)
  end.

(** [Portfolio.add_position]. [timestamp] defaults to [datetime.now()]. *)
Definition add_position (pid : string) (s : Side) (quantity_ price : Q)
    (timestamp : option Z) (now : Z) : M Position :=
  pf ← get_state;
  let ts := default now timestamp in
  let position_value := quantity_ * price in
  if (bool_decide (s = BUY) && Qgtb position_value pf.(cash_balance))%bool
  then raise InsufficientFundsError
  else if Qgtb position_value pf.(max_position_size)
  then raise TradingError
  else
    (match pf.(positions) !! pid with
     | Some existing_pos =>
         if bool_decide (existing_pos.(side) <> s) then
           (* closing or reducing position *)
           if Qle_bool existing_pos.(quantity) quantity_ then
             (* full close or reverse *)
             let pnl := calculate_pnl existing_pos price existing_pos.(quantity) in
             record_trade existing_pos price existing_pos.(quantity) pnl now ;;
             if Qgtb quantity_ existing_pos.(quantity) then
               (* reverse position *)
               let remaining_qty := quantity_ - existing_pos.(quantity) in
               put_position pid (new_Position pid s remaining_qty price ts) ;;
               (match s with
                | BUY => add_cash (- (remaining_qty * price))
                | SELL => add_cash (remaining_qty * price)
                end)
             else
               (* full close *)
               del_position pid ;;
               (match s with
                | BUY => add_cash pnl
                | SELL => add_cash (- pnl)
                end)
           else
             (* partial close *)
             let pnl := calculate_pnl existing_pos price quantity_ in
             record_trade existing_pos price quantity_ pnl now ;;
             put_position pid
               (set_realized_pnl
                  (set_quantity existing_pos (existing_pos.(quantity) - quantity_))
                  (existing_pos.(realized_pnl) + pnl)) ;;
             (match s with
              | BUY => add_cash pnl
              | SELL => add_cash (- pnl)
              end)
         else
           (* add to existing position *)
           let total_value := existing_pos.(quantity) * existing_pos.(entry_price)
                              + quantity_ * price in
           let total_quantity := existing_pos.(quantity) + quantity_ in
           e ← pydiv total_value total_quantity;
           put_position pid (set_quantity (set_entry_price existing_pos e) total_quantity) ;;
           (match s with
            | BUY => add_cash (- (quantity_ * price))
            | SELL => add_cash (quantity_ * price)
            end)
     | None =>
         put_position pid (new_Position pid s quantity_ price ts) ;;
         (match s with
          | BUY => add_cash (- position_value)
          | SELL => add_cash position_value
          end)
     end) ;;
    index_position pid.

(** [Portfolio.close_position]: [None] when there is no such position. *)
Definition close_position (pid : string) (price : Q) (now : Z) : M (option Q) :=
  pf ← get_state;
  match pf.(positions) !! pid with
  | None => mret None
  | Some pos =>
      let pnl := calculate_pnl pos price pos.(quantity) in
      record_trade pos price pos.(quantity) pnl now ;;
      (match pos.(side) with
       | BUY => add_cash (pos.(quantity) * price)
       | SELL => add_cash pnl
       end) ;;
      del_position pid ;;
      mret (Some pnl)
  end.

(** [Portfolio.update_positions]: mark every position whose product has a
    price in [market_prices]. *)
Definition update_positions (market_prices : gmap string Q) : M unit :=
  modify (fun pf => set_positions pf
    (map_imap (fun pid pos =>
       Some (match market_prices !! pid with
             | Some p => update_current_price pos p
             | None => pos
             end)) pf.(positions))).

(** [Portfolio.reset] *)
Definition reset (pf : Portfolio) : Portfolio :=
  mkPortfolio pf.(initial_capital) pf.(initial_capital) ∅ [] pf.(max_position_size).

(** Accounting quantities of the conservation law. *)
Definition sum_realized_pnl (pf : Portfolio) : Q :=
  fold_right (fun t acc => t.(tr_pnl) + acc) 0 pf.(trade_history).

Definition sum_unrealized_pnl (pf : Portfolio) : Q :=
  map_fold (fun _ pos acc => default 0 pos.(unrealized_pnl) + acc) 0 pf.(positions).

(** [cash_balance + Σ market_value == initial_capital + Σ realized + Σ unrealized] *)
Definition conserved (pf : Portfolio) : Prop :=
  get_total_value pf == pf.(initial_capital) + sum_realized_pnl pf + sum_unrealized_pnl pf.

(** ** Strategy interface (src/strategies/base.py) *)

(** [Signal] enum *)
Inductive SignalKind := S_BUY | S_SELL | S_HOLD.

Global Instance SignalKind_eq_dec : EqDecision SignalKind.
Proof. solve_decision. Defined.

(** [TradingSignal]; the constructor refuses a confidence outside
    [[0.0, 1.0]], so every value of this record was checked. *)
Record TradingSignal := mkTradingSignal {
  signal : SignalKind;
  confidence : Q;
  sig_price : option Q;
  sig_timestamp : option Z;
  metadata : list (string * string)
}.

(** One row of the market data frame; [bar_time] is the row index. *)
Record Bar := mkBar {
  bar_time : Z;
  bar_open : Q;
  bar_high : Q;
  bar_low : Q;
  bar_close : Q;
  bar_volume : Q
}.

(** The methods of [BaseStrategy] the engine calls. A call that raises is
    [Err]. [initialize] only sets up indicators and is not modelled. *)
Record Strategy := mkStrategy {
  name : string;
  get_required_history : nat;
  generate_signal : list Bar -> Result TradingSignal;
  calculate_position_size : Q -> Q -> TradingSignal -> Q;
  should_exit_position : list Bar -> Q -> Q -> Side -> Result (bool * string);
  get_parameters : list (string * Q)
}.

(** Python [min(a, b)] *)
Definition pymin (a b : Q) : Q := if Qltb b a then b else a.

(** [BaseStrategy.calculate_position_size] with parameter [position_size]. *)
Definition base_calculate_position_size (position_size : Q)
    (account_balance _current_price : Q) (sg : TradingSignal) : Q :=
  pymin (position_size * sg.(confidence)) (account_balance * (1 # 10)).

(** [BaseStrategy.should_exit_position] with parameters [stop_loss_pct] and
    [take_profit_pct]. *)
Definition base_should_exit_position (stop_loss_pct take_profit_pct : Q)
    (_market_data : list Bar) (entry_price_ current_price_ : Q) (position_side : Side)
    : Result (bool * string) :=
  if Qeq_bool entry_price_ 0 then Err ZeroDivisionError else
  let pnl_pct := match position_side with
                 | BUY => (current_price_ - entry_price_) / entry_price_
                 | SELL => (entry_price_ - current_price_) / entry_price_
                 end in
  if Qle_bool pnl_pct (- stop_loss_pct) then Ok (true, "stop_loss")
  else if Qle_bool take_profit_pct pnl_pct then Ok (true, "take_profit")
  else Ok (false, "").

(** ** Engine (src/backtesting/engine.py) *)

Record Engine := mkEngine {
  eng_initial_capital : Q;
  commission_rate : Q;
  slippage_rate : Q
}.

(** Rows of the three logs of [run_backtest]. *)
Record Snapshot := mkSnapshot {
  snap_timestamp : Z;
  snap_portfolio_value : Q;
  snap_cash : Q;
  snap_positions : Q
}.

Record SignalRow := mkSignalRow {
  sr_timestamp : Z;
  sr_signal : SignalKind;
  sr_confidence : Q;
  sr_price : Q;
  sr_metadata : list (string * string)
}.

Inductive Action := A_BUY | A_SELL | A_CLOSE.

(** A row of the engine's [trades] list; keys absent from a row are [None]. *)
Record TradeRow := mkTradeRow {
  row_timestamp : Z;
  row_action : Action;
  row_product_id : string;
  row_price : Q;
  row_quantity : Q;
  row_value : option Q;
  row_commission : option Q;
  row_pnl : option (option Q);
  row_confidence : option Q;
  row_reason : option string
}.

(** The lists [portfolio_values], [signals], [trades] of [run_backtest]. *)
Record Logs := mkLogs {
  log_values : list Snapshot;
  log_signals : list SignalRow;
  log_trades : list TradeRow
}.

Definition empty_logs : Logs := mkLogs [] [] [].

Definition push_value (l : Logs) (x : Snapshot) : Logs :=
  mkLogs (l.(log_values) ++ [x]) l.(log_signals) l.(log_trades).
Definition push_signal (l : Logs) (x : SignalRow) : Logs :=
  mkLogs l.(log_values) (l.(log_signals) ++ [x]) l.(log_trades).
Definition push_trade (l : Logs) (x : TradeRow) : Logs :=
  mkLogs l.(log_values) l.(log_signals) (l.(log_trades) ++ [x]).

Definition gets {A} (f : Portfolio -> A) : M A := fun s => (Ok (f s), s).

(** Slippage: a BUY fills at [price * (1 + slippage_rate)], a SELL at
    [price * (1 - slippage_rate)]. *)
Definition execution_price_of (eng : Engine) (k : SignalKind) (price : Q) : Q :=
  match k with
  | S_BUY => price * (1 + eng.(slippage_rate))
  | _ => price * (1 - eng.(slippage_rate))
  end.

(** [BacktestEngine._execute_signal]; every exception is caught and turned
    into [None]. *)
Definition execute_signal (eng : Engine) (sg : TradingSignal) (pid : string)
    (price : Q) (timestamp : Z) (strategy : Strategy) (now : Z) : M (option TradeRow) :=
  catch
    (match sg.(signal) with
     | S_HOLD => mret None
     | _ =>
       let execution_price := execution_price_of eng sg.(signal) price in
       account_balance ← gets cash_balance;
       let position_size_usd :=
         strategy.(calculate_position_size) account_balance execution_price sg in
       if Qltb position_size_usd 10 then mret None   (* minimum trade size *)
       else
         match sg.(signal) with
         | S_BUY =>
             quantity_ ← pydiv position_size_usd execution_price;
             let commission := position_size_usd * eng.(commission_rate) in
             let effective_size := position_size_usd + commission in
             if Qle_bool effective_size account_balance then
               add_position pid BUY quantity_ execution_price (Some timestamp) now ;;
               mret (Some (mkTradeRow timestamp A_BUY pid execution_price quantity_
                            (Some position_size_usd) (Some commission) None
                            (Some sg.(confidence)) None))
             else mret None
         | S_SELL =>
             position ← gets (fun pf => get_position pf pid);
             match position with
             | Some pos =>
                 if bool_decide (pos.(side) = BUY) then
                   let quantity_ := pos.(quantity) in
                   let commission := quantity_ * execution_price * eng.(commission_rate) in
                   pnl ← close_position pid execution_price now;
                   mret (Some (mkTradeRow timestamp A_SELL pid execution_price quantity_
                                (Some (quantity_ * execution_price)) (Some commission)
                                (Some pnl) (Some sg.(confidence)) None))
                 else mret None
             | None => mret None
             end
         | S_HOLD => mret None
         end
     end)
    (fun _ => mret None).

(** One iteration [i] of the main loop of [run_backtest]. [clock i] is the
    value of [datetime.now()] during that iteration. *)
Definition backtest_step (eng : Engine) (strategy : Strategy) (market_data : list Bar)
    (pid : string) (clock : nat -> Z) (acc : Logs) (i : nat) : M Logs :=
  let current_data := take (S i) market_data in
  let current_row := default (mkBar 0 0 0 0 0 0) (market_data !! i) in
  let current_price := current_row.(bar_close) in
  let current_time := current_row.(bar_time) in
  update_positions {[ pid := current_price ]} ;;
  snap ← gets (fun pf => mkSnapshot current_time (get_total_value pf)
                           pf.(cash_balance) (get_total_invested pf));
  let acc1 := push_value acc snap in
  match strategy.(generate_signal) current_data with
  | Err _ => mret acc1    (* logged; [continue] *)
  | Ok sg =>
      let acc2 := push_signal acc1 (mkSignalRow current_time sg.(signal)
                                      sg.(confidence) current_price sg.(metadata)) in
      trade_executed ←
        (if Qgtb sg.(confidence) (1 # 2)
         then execute_signal eng sg pid current_price current_time strategy (clock i)
         else mret None);
      let acc3 := match trade_executed with
                  | Some t => push_trade acc2 t
                  | None => acc2
                  end in
      position ← gets (fun pf => get_position pf pid);
      match position with
      | None => mret acc3
      | Some pos =>
          match strategy.(should_exit_position) current_data pos.(entry_price)
                  current_price pos.(side) with
          | Err e => raise e
          | Ok (false, _) => mret acc3
          | Ok (true, reason) =>
              pnl ← close_position pid current_price (clock i);
              match pnl with
              | Some p => mret (push_trade acc3
                           (mkTradeRow current_time A_CLOSE pid current_price
                              pos.(quantity) None None (Some (Some p)) None (Some reason)))
              | None => mret acc3
              end
          end
      end
  end.

Fixpoint backtest_loop (eng : Engine) (strategy : Strategy) (market_data : list Bar)
    (pid : string) (clock : nat -> Z) (idx : list nat) (acc : Logs) : M Logs :=
  match idx with
  | [] => mret acc
  | i :: rest =>
      acc' ← backtest_step eng strategy market_data pid clock acc i;
      backtest_loop eng strategy market_data pid clock rest acc'
  end.

(** ** Metrics ([BacktestEngine._calculate_results]) *)

(** [Series.pct_change()] without its leading NaN. *)
Fixpoint pct_change (vs : list Q) : list Q :=
  match vs with
  | a :: ((b :: _) as t) => (b / a - 1) :: pct_change t
  | _ => []
  end.

(** [(1 + returns).cumprod()] without its leading NaN. *)
Fixpoint cumprod_from (acc : Q) (rs : list Q) : list Q :=
  match rs with
  | [] => []
  | r :: t => (acc * (1 + r)) :: cumprod_from (acc * (1 + r)) t
  end.

Definition q_sum (xs : list Q) : Q := fold_right Qplus 0 xs.

(** [Series.mean()]: NaN ([None]) on an empty series. *)
Definition q_mean (xs : list Q) : option Q :=
  match xs with
  | [] => None
  | _ => Some (q_sum xs / inject_Z (Z.of_nat (length xs)))
  end.

(** [Series.std()] (sample standard deviation, ddof = 1): NaN ([None]) on
    fewer than two values. *)
Definition q_std (xs : list Q) : option R :=
  match xs with
  | _ :: _ :: _ =>
      let m := q_sum xs / inject_Z (Z.of_nat (length xs)) in
      let var := q_sum (map (fun x => (x - m) * (x - m)) xs)
                 / inject_Z (Z.of_nat (length xs - 1)) in
      Some (sqrt (Q2R var))
  | _ => None
  end.

(** [returns.std() * np.sqrt(252) * 100] *)
Definition volatility_of (rs : list Q) : option R :=
  match q_std rs with
  | Some s => Some (s * sqrt 252 * 100)%R
  | None => None
  end.

(** [(returns.mean() / returns.std()) * np.sqrt(252) if returns.std() > 0
    else 0]; a NaN standard deviation fails the test [> 0]. *)
Definition sharpe_of (rs : list Q) : R :=
  match q_std rs with
  | Some s =>
      if Rlt_dec 0 s
      then (Q2R (default 0%Q (q_mean rs)) / s * sqrt 252)%R
      else 0%R
  | None => 0%R
  end.

(** [((v - v.expanding().max()) / v.expanding().max() * 100).min()] on a
    non-empty series. *)
Fixpoint drawdowns (peak : Q) (vs : list Q) : list Q :=
  match vs with
  | [] => []
  | v :: t =>
      let peak' := if Qltb peak v then v else peak in
      ((v - peak') / peak' * 100) :: drawdowns peak' t
  end.

Definition list_min (x : Q) (xs : list Q) : Q :=
  fold_left (fun a b => if Qltb b a then b else a) xs x.
Definition list_max (x : Q) (xs : list Q) : Q :=
  fold_left (fun a b => if Qltb a b then b else a) xs x.

Definition max_drawdown_of (v0 : Q) (vs : list Q) : Q :=
  match drawdowns v0 (v0 :: vs) with
  | d :: ds => list_min d ds
  | [] => 0
  end.

Definition row_pnl_gt0 (t : TradeRow) : bool :=
  match t.(row_pnl) with Some (Some p) => Qgtb p 0 | _ => false end.
Definition row_pnl_lt0 (t : TradeRow) : bool :=
  match t.(row_pnl) with Some (Some p) => Qltb p 0 | _ => false end.
Definition row_pnl_value (t : TradeRow) : Q :=
  match t.(row_pnl) with Some (Some p) => p | _ => 0 end.

Record Report := mkReport {
  total_return : Q;
  buy_hold_return : Q;
  excess_return : Q;
  volatility : option R;
  sharpe_ratio : R;
  max_drawdown : Q;
  rep_initial_capital : Q;
  final_value : Q;
  max_value : Q;
  min_value : Q;
  total_trades : nat;
  winning_trades : nat;
  losing_trades : nat;
  win_rate : Q;
  avg_win : Q;
  avg_loss : Q;
  profit_factor : Q;
  total_signals : nat;
  buy_signals : nat;
  sell_signals : nat;
  hold_signals : nat;
  avg_confidence : Q;
  start_date : Z;
  end_date : Z;
  duration_days : Z;
  rep_portfolio_values : list Snapshot;
  rep_returns : list Q;
  rep_cumulative_return : list Q;
  rep_signals : list SignalRow;
  rep_trades : list TradeRow;
  strategy_name : string;
  strategy_params : list (string * Q)
}.

(** The trade statistics block of [_calculate_results]: all zero for an
    empty trade log. *)
Record TradeStats := mkTradeStats {
  ts_win_rate : Q;
  ts_avg_win : Q;
  ts_avg_loss : Q;
  ts_profit_factor : Q
}.

Definition trade_stats (trades : list TradeRow) : TradeStats :=
  match trades with
  | [] => mkTradeStats 0 0 0 0
  | _ =>
    let profitable := filter (fun t => row_pnl_gt0 t = true) trades in
    let losing := filter (fun t => row_pnl_lt0 t = true) trades in
    mkTradeStats
      (inject_Z (Z.of_nat (length profitable)) / inject_Z (Z.of_nat (length trades)) * 100)
      (default 0 (q_mean (map row_pnl_value profitable)))
      (default 0 (q_mean (map row_pnl_value losing)))
      (match losing with
       | [] => 0
       | _ => let ls := q_sum (map row_pnl_value losing) in
              if Qeq_bool ls 0 then 0
              else Qabs (q_sum (map row_pnl_value profitable) / ls)
       end)
  end.

(** [BacktestEngine._calculate_results]; [None] is the empty dict returned
    when [portfolio_values] is empty. *)
Definition calculate_results (eng : Engine) (logs : Logs) (market_data : list Bar)
    (strategy : Strategy) : option Report :=
  match logs.(log_values) with
  | [] => None
  | first :: _ =>
    let lastv := default first (last logs.(log_values)) in
    let values := map snap_portfolio_value logs.(log_values) in
    let returns := pct_change values in
    let initial_price := default 0 (bar_close <$> head market_data) in
    let final_price := default 0 (bar_close <$> last market_data) in
    let buy_hold := (final_price - initial_price) / initial_price * 100 in
    let total := (lastv.(snap_portfolio_value) - eng.(eng_initial_capital))
                 / eng.(eng_initial_capital) * 100 in
    let trades := logs.(log_trades) in
    let profitable := filter (fun t => row_pnl_gt0 t = true) trades in
    let losing := filter (fun t => row_pnl_lt0 t = true) trades in
    let st := trade_stats trades in
    let sigs := logs.(log_signals) in
    let count k := length (filter (fun r => r.(sr_signal) = k) sigs) in
    Some (mkReport total buy_hold (total - buy_hold) (volatility_of returns) (sharpe_of returns)
      (max_drawdown_of first.(snap_portfolio_value) (tail values))
      eng.(eng_initial_capital) lastv.(snap_portfolio_value)
      (list_max first.(snap_portfolio_value) (tail values))
      (list_min first.(snap_portfolio_value) (tail values))
      (length trades)
      (match trades with [] => 0%nat | _ => length profitable end)
      (match trades with [] => 0%nat | _ => length losing end)
      st.(ts_win_rate) st.(ts_avg_win) st.(ts_avg_loss) st.(ts_profit_factor)
      (length sigs) (count S_BUY) (count S_SELL) (count S_HOLD)
      (default 0 (q_mean (map sr_confidence sigs)))
      first.(snap_timestamp) lastv.(snap_timestamp)
      ((lastv.(snap_timestamp) - first.(snap_timestamp)) / 86400)%Z
      logs.(log_values) returns (cumprod_from 1 returns) sigs trades
      strategy.(name) strategy.(get_parameters))
  end.

(** [BacktestEngine.run_backtest] without a date filter; any exception is
    re-raised as [BacktestError]. *)
Definition run_backtest (eng : Engine) (strategy : Strategy) (market_data : list Bar)
    (pid : string) (clock : nat -> Z) : M Report :=
  catch
    (match market_data with
     | [] => raise BacktestError
     | _ =>
       modify reset ;;
       let min_history := strategy.(get_required_history) in
       if Nat.ltb (length market_data) min_history then raise BacktestError
       else
         logs ← backtest_loop eng strategy market_data pid clock
                  (seq min_history (length market_data - min_history)) empty_logs;
         match calculate_results eng logs market_data strategy with
         | Some r => mret r
         | None => raise KeyError    (* self.results['total_return'] on {} *)
         end
     end)
    (fun _ => raise BacktestError).

(** ** Portfolio metrics ([Portfolio.get_metrics]) *)

Record PortfolioMetrics := mkPortfolioMetrics {
  pm_total_value : Q;
  pm_cash_balance : Q;
  pm_invested_value : Q;
  pm_total_pnl : Q;
  pm_total_return_pct : Q;
  pm_daily_return_pct : Q;
  pm_max_drawdown_pct : Q;
  pm_sharpe_ratio : Q;
  pm_win_rate : Q;
  pm_num_positions : nat;
  pm_num_winning_trades : nat;
  pm_num_losing_trades : nat
}.

(** [Portfolio.get_metrics]: raises [ZeroDivisionError] when the initial
    capital is 0; the daily return, drawdown and Sharpe fields keep their
    defaults (0). *)
Definition get_metrics (pf : Portfolio) : Result PortfolioMetrics :=
  let total_value := get_total_value pf in
  let invested_value := get_total_invested pf in
  let realized := sum_realized_pnl pf in
  let unrealized := sum_unrealized_pnl pf in
  let total_pnl := realized + unrealized in
  if Qeq_bool pf.(initial_capital) 0 then Err ZeroDivisionError else
  let total_return_pct := (total_value - pf.(initial_capital)) / pf.(initial_capital) * 100 in
  let winning := filter (fun t => Qgtb t.(tr_pnl) 0 = true) pf.(trade_history) in
  let losing := filter (fun t => Qltb t.(tr_pnl) 0 = true) pf.(trade_history) in
  let win_rate :=
    match pf.(trade_history) with
    | [] => 0
    | h => inject_Z (Z.of_nat (length winning)) / inject_Z (Z.of_nat (length h))
    end in
  Ok (mkPortfolioMetrics total_value pf.(cash_balance) invested_value total_pnl
        total_return_pct 0 0 0 win_rate (size pf.(positions))
        (length winning) (length losing)).

(** ** Date filter ([BacktestEngine._filter_by_date_range])

    The date strings are compared with the row index after pandas converts
    them to timestamps; here they are timestamps already. *)
Definition filter_by_date_range (data : list Bar) (start_date end_date : option Z)
    : list Bar :=
  let data1 := match start_date with
               | Some sd => filter (fun b => (sd <=? b.(bar_time))%Z = true) data
               | None => data
               end in
  match end_date with
  | Some ed => filter (fun b => (b.(bar_time) <=? ed)%Z = true) data1
  | None => data1
  end.

(** [run_backtest] with its optional [start_date] and [end_date]. *)
Definition run_backtest_range (eng : Engine) (strategy : Strategy) (market_data : list Bar)
    (pid : string) (start_date end_date : option Z) (clock : nat -> Z) : M Report :=
  let market_data' :=
    match start_date, end_date with
    | None, None => market_data
    | _, _ => filter_by_date_range market_data start_date end_date
    end in
  run_backtest eng strategy market_data' pid clock.

(** * Properties *)

(** ** Helper lemmas and tactics *)

Lemma Qgtb_true x y : Qgtb x y = true <-> y < x.
Proof.
  unfold Qgtb. rewrite negb_true_iff, <- not_true_iff_false, Qle_bool_iff.
  split; [apply Qnot_le_lt | apply Qlt_not_le].
Qed.

Lemma Qgtb_false x y : Qgtb x y = false <-> x <= y.
Proof.
  unfold Qgtb. rewrite negb_false_iff, Qle_bool_iff. reflexivity.
Qed.

Ltac unfold_M := unfold add_position, close_position, record_trade, pydiv,
  index_position, add_cash, put_position, del_position, mbind, M_bind, mret,
  M_ret, get_state, raise, modify, gets in *.

(** ** Ledger *)

(** C10: the cash check (for a BUY) and the position-size check of
    [add_position] come before the branch on an existing position, so they
    apply to every fill, including reductions, closes and reversals of an
    opposite-side position: a notional above [max_position_size] raises a
    [TradingError] (possibly its subclass [InsufficientFundsError]), a BUY
    notional above the cash raises [InsufficientFundsError], and in both
    cases the ledger is returned unchanged. *)
Theorem add_position_prechecks (pf : Portfolio) (pid : string) (s : Side)
    (q p : Q) (ts : option Z) (now : Z) :
  let r := add_position pid s q p ts now pf in
  (pf.(max_position_size) < q * p ->
     (exists e, fst r = Err e /\ is_trading_error e = true) /\ snd r = pf) /\
  (s = BUY -> pf.(cash_balance) < q * p ->
     fst r = Err InsufficientFundsError /\ snd r = pf).
Proof.
  cbn zeta. unfold add_position, mbind, M_bind, get_state, raise.
  split.
  - intros Hmax. apply Qgtb_true in Hmax.
    destruct (bool_decide (s = BUY) && Qgtb (q * p) (cash_balance pf))%bool; simpl.
    + split; [eexists; split; reflexivity | reflexivity].
    + rewrite Hmax. simpl. split; [eexists; split; reflexivity | reflexivity].
  - intros -> Hc. apply Qgtb_true in Hc. rewrite Hc. simpl. auto.
Qed.

(** A short position of 10 at 100 and 500 in cash; a BUY of 6 at 100 would
    only reduce the short, yet it is refused for lack of cash. *)
Lemma add_position_prechecks_witness :
  let pf := mkPortfolio 10000 500
              {[ "BTC-USD" := new_Position "BTC-USD" SELL 10 100 0 ]} [] 1000 in
  pf.(cash_balance) < 6 * 100 /\
  fst (add_position "BTC-USD" BUY 6 100 (Some 1%Z) 1 pf) = Err InsufficientFundsError /\
  snd (add_position "BTC-USD" BUY 6 100 (Some 1%Z) 1 pf) = pf.
Proof.
  cbn zeta.
  assert (H : cash_balance (mkPortfolio 10000 500
              {[ "BTC-USD" := new_Position "BTC-USD" SELL 10 100 0 ]} [] 1000) < 6 * 100)
    by reflexivity.
  split; [exact H|].
  exact (proj2 (add_position_prechecks _ "BTC-USD" BUY 6 100 (Some 1%Z) 1) eq_refl H).
Defined.

Lemma add_position_rejection_pure (pf : Portfolio) pid s q p ts now :
  fst (add_position pid s q p ts now pf) = Err InsufficientFundsError \/
  fst (add_position pid s q p ts now pf) = Err TradingError ->
  snd (add_position pid s q p ts now pf) = pf.
Proof.
  unfold_M. intros H. repeat case_match; simpl in *; destruct H; congruence.
Qed.

(** C5: a rejected fill changes nothing. (1) When [add_position] raises
    [InsufficientFundsError] or the position-limit [TradingError], cash,
    positions and trade history are those of the state it was called on.
    (2) When the proposed notional is below the $10 minimum, the execution
    simulator returns no trade and leaves the ledger unchanged. (3) When
    the execution simulator's BUY is rejected by the ledger, it returns no
    trade and the ledger is unchanged. *)
Theorem rejection_atomicity :
  (forall (pf : Portfolio) pid s q p ts now,
     fst (add_position pid s q p ts now pf) = Err InsufficientFundsError \/
     fst (add_position pid s q p ts now pf) = Err TradingError ->
     snd (add_position pid s q p ts now pf) = pf) /\
  (forall eng sg pid price ts strategy now (pf : Portfolio),
     sg.(signal) <> S_HOLD ->
     strategy.(calculate_position_size) pf.(cash_balance)
        (execution_price_of eng sg.(signal) price) sg < 10 ->
     execute_signal eng sg pid price ts strategy now pf = (Ok None, pf)) /\
  (forall eng sg pid price ts strategy now (pf : Portfolio),
     sg.(signal) = S_BUY ->
     let ep := execution_price_of eng S_BUY price in
     let size := strategy.(calculate_position_size) pf.(cash_balance) ep sg in
     ~ (ep == 0) ->
     fst (add_position pid BUY (size / ep) ep (Some ts) now pf) = Err InsufficientFundsError \/
     fst (add_position pid BUY (size / ep) ep (Some ts) now pf) = Err TradingError ->
     execute_signal eng sg pid price ts strategy now pf = (Ok None, pf)).
Proof.
  split; [exact add_position_rejection_pure|]. split.
  - intros eng sg pid price ts strategy now pf Hk Hsmall.
    unfold execute_signal, catch, gets, mbind, M_bind, mret, M_ret.
    assert (Hlt : Qltb (calculate_position_size strategy (cash_balance pf)
              (execution_price_of eng (signal sg) price) sg) 10 = true).
    { unfold Qltb. apply negb_true_iff, not_true_iff_false.
      rewrite Qle_bool_iff. apply Qlt_not_le. exact Hsmall. }
    destruct (signal sg); [| |congruence]; rewrite Hlt; reflexivity.
  - intros eng sg pid price ts strategy now pf Hk ep size Hep Hrej.
    pose proof (add_position_rejection_pure pf pid BUY (size / ep) ep (Some ts) now Hrej) as Hs.
    unfold execute_signal, catch, gets, mbind, M_bind, mret, M_ret.
    rewrite Hk. fold ep. fold size.
    unfold pydiv, raise, mret, M_ret.
    assert (Hz : Qeq_bool ep 0 = false).
    { destruct (Qeq_bool ep 0) eqn:Z0; [|reflexivity].
      apply Qeq_bool_eq in Z0. contradiction. }
    rewrite Hz.
    destruct (Qltb size 10); [reflexivity|].
    destruct (Qle_bool (size + size * commission_rate eng) (cash_balance pf)); [|reflexivity].
    destruct (add_position pid BUY (size / ep) ep (Some ts) now pf) as [r s'] eqn:E.
    simpl in Hs, Hrej. subst s'.
    destruct Hrej as [-> | ->]; reflexivity.
Qed.

(** A long position of 10 at 100 under the default limit of 1000: a SELL of
    15 at 90 (notional 1350) is refused and the ledger is unchanged; a
    signal sized below $10 is not executed. *)
Lemma rejection_atomicity_witness :
  let pf := snd (add_position "BTC-USD" BUY 10 100 (Some 0%Z) 0
                   (new_Portfolio 10000 default_max_position_size)) in
  let strat := mkStrategy "base" 1 (fun _ => Err StrategyException)
                 (base_calculate_position_size 5) (fun _ _ _ _ => Ok (false, "")) [] in
  let sg := mkTradingSignal S_BUY (8 # 10) None None [] in
  snd (add_position "BTC-USD" SELL 15 90 (Some 1%Z) 1 pf) = pf /\
  execute_signal (mkEngine 10000 (5 # 1000) (1 # 1000)) sg "BTC-USD" 100 1 strat 1 pf
    = (Ok None, pf).
Proof.
  cbn zeta. split.
  - apply (proj1 rejection_atomicity). right. vm_compute. reflexivity.
  - apply (proj1 (proj2 rejection_atomicity)); [discriminate | vm_compute; reflexivity].
Defined.




(** C4 (failing input): a long of 10 at 100, then a SELL of 5 at 110. The
    partial close realizes +50 on the position, but the SELL branch of
    [add_position] does [cash_balance -= pnl]: the cash goes down by 50
    instead of being credited. *)
Lemma partial_close_sell_debits_pnl :
  let pf := snd (add_position "BTC-USD" BUY 10 100 (Some 0%Z) 0
                   (new_Portfolio 10000 default_max_position_size)) in
  let r := add_position "BTC-USD" SELL 5 110 (Some 1%Z) 1 pf in
  fst r = Ok (set_realized_pnl (set_quantity (new_Position "BTC-USD" BUY 10 100 0) 5) 50) /\
  (tr_pnl <$> last (snd r).(trade_history)) = Some 50 /\
  pf.(cash_balance) == 9000 /\
  (snd r).(cash_balance) == 9000 - 50.
Proof. vm_compute. repeat split. Qed.

(** C1 (failing input): the same long of 10 at 100, a SELL of 5 at 110,
    then the mark step at 110. Cash plus market value is 9500, while initial
    capital plus realized plus unrealized PnL is 10100. *)
Lemma conservation_fails_after_partial_sell :
  let pf0 := new_Portfolio 10000 default_max_position_size in
  let pf1 := snd (add_position "BTC-USD" BUY 10 100 (Some 0%Z) 0 pf0) in
  let pf2 := snd (add_position "BTC-USD" SELL 5 110 (Some 1%Z) 1 pf1) in
  let pf3 := snd (update_positions {[ "BTC-USD" := 110 ]} pf2) in
  get_total_value pf3 == 9500 /\
  pf3.(initial_capital) + sum_realized_pnl pf3 + sum_unrealized_pnl pf3 == 10100 /\
  ~ conserved pf3.
Proof.
  vm_compute. split; [reflexivity|]. split; [reflexivity|]. intro H. discriminate H.
Qed.

(** C3 (failing input): the spec's scenario. Engine with capital 10000,
    commission 0.5%, slippage 0.1%; the base strategy with
    [position_size = 1250] sizes a BUY of confidence 0.8 at 100 to $1000.
    The fill price is 100.1 and the trade row carries a commission of 5,
    but the cash afterwards is 9000: the commission is never charged. *)
Lemma commission_not_charged :
  let eng := mkEngine 10000 (5 # 1000) (1 # 1000) in
  let sg := mkTradingSignal S_BUY (8 # 10) None None [] in
  let strat := mkStrategy "base" 1 (fun _ => Ok sg) (base_calculate_position_size 1250)
                 (base_should_exit_position (5 # 100) (10 # 100)) [] in
  let r := execute_signal eng sg "BTC-USD" 100 0 strat 0
             (new_Portfolio 10000 default_max_position_size) in
  (exists row, fst r = Ok (Some row) /\ row.(row_price) == 1001 # 10 /\
     default 0 row.(row_value) == 1000 /\ is_Some row.(row_value) /\
     default 0 row.(row_commission) == 5 /\ is_Some row.(row_commission) /\
     row.(row_quantity) == 1000 / (1001 # 10)) /\
  (snd r).(cash_balance) == 9000 /\
  ~ ((snd r).(cash_balance) == 8995).
Proof.
  cbn zeta. split; [|split].
  - eexists. split; [vm_compute; reflexivity|]. vm_compute.
    repeat split; eexists; reflexivity.
  - vm_compute. reflexivity.
  - vm_compute. intro H. discriminate H.
Qed.

(** ** Execution simulator *)

Definition opposite (s : Side) : Side :=
  match s with BUY => SELL | SELL => BUY end.

(** The outcomes of an opposite-side fill of [q] units at price [p] on the
    positions map: unchanged (refused), reduced by [q], closed ([q] equals
    the open quantity), or reversed to the residual [q - quantity]. A trade
    is recorded in the three last cases, so the closed cost
    [entry_price * closed quantity] is non-zero there. *)
Definition reduction_outcome (ps ps' : gmap string Position) (pid : string)
    (ex : Position) (q p : Q) (t : Z) : Prop :=
  ps' = ps \/
  (q < ex.(quantity) /\ ~ ex.(entry_price) * q == 0 /\
     ps' = <[pid := set_realized_pnl (set_quantity ex (ex.(quantity) - q))
                      (ex.(realized_pnl) + calculate_pnl ex p q)]> ps) \/
  (q == ex.(quantity) /\ ~ ex.(entry_price) * ex.(quantity) == 0 /\
     ps' = delete pid ps) \/
  (ex.(quantity) < q /\ ~ ex.(entry_price) * ex.(quantity) == 0 /\
     ps' = <[pid := new_Position pid (opposite ex.(side)) (q - ex.(quantity)) p t]> ps).

Lemma Qle_bool_false x y : Qle_bool x y = false -> y < x.
Proof.
  intros H. apply Qnot_le_lt. intros Hle. apply Qle_bool_iff in Hle. congruence.
Qed.

Lemma Qeq_bool_false_nz x : Qeq_bool x 0 = false -> ~ x == 0.
Proof. intros H E. apply Qeq_bool_iff in E. congruence. Qed.

Lemma add_position_opposite_outcome (pf : Portfolio) pid s q p t now ex :
  pf.(positions) !! pid = Some ex -> ex.(side) <> s ->
  reduction_outcome pf.(positions) (snd (add_position pid s q p (Some t) now pf)).(positions)
    pid ex q p t.
Proof.
  intros Hpos Hside. unfold reduction_outcome.
  unfold add_position, mbind, M_bind, get_state, raise.
  destruct (_ && _)%bool; [left; reflexivity|].
  destruct (Qgtb _ _); [left; reflexivity|].
  rewrite Hpos, bool_decide_eq_true_2 by exact Hside.
  unfold record_trade, pydiv, mbind, M_bind, raise, mret, M_ret, modify,
    put_position, del_position, add_cash, index_position.
  destruct (Qle_bool (quantity ex) q) eqn:Hle.
  - destruct (Qeq_bool _ 0) eqn:Hz; [left; reflexivity|]. simpl.
    apply Qeq_bool_false_nz in Hz.
    destruct (Qgtb q (quantity ex)) eqn:Hgt.
    + right; right; right. split; [apply Qgtb_true; exact Hgt|]. split; [exact Hz|].
      assert (Hs : s = opposite (side ex)) by (destruct s, (side ex); simpl; congruence).
      rewrite <- Hs. destruct s; simpl; repeat case_match; reflexivity.
    + right; right; left. split.
      * apply Qle_antisym; [apply Qgtb_false; exact Hgt|apply Qle_bool_iff; exact Hle].
      * split; [exact Hz|]. destruct s; simpl; repeat case_match; reflexivity.
  - destruct (Qeq_bool _ 0) eqn:Hz; [left; reflexivity|]. simpl.
    apply Qeq_bool_false_nz in Hz.
    right; left. split; [apply Qle_bool_false; exact Hle|]. split; [exact Hz|].
    destruct s; simpl; repeat case_match; reflexivity.
Qed.

Lemma close_position_positions (pf : Portfolio) pid price now ex :
  pf.(positions) !! pid = Some ex ->
  (snd (close_position pid price now pf)).(positions) = pf.(positions) \/
  (~ ex.(entry_price) * ex.(quantity) == 0 /\
   (snd (close_position pid price now pf)).(positions) = delete pid pf.(positions)).
Proof.
  intros Hpos. unfold_M. rewrite Hpos.
  destruct (Qeq_bool _ 0) eqn:Hz; [left; reflexivity|]. right.
  split; [apply Qeq_bool_false_nz; exact Hz|].
  destruct (side ex); reflexivity.
Qed.

(** A position left by [reduction_outcome] at the instrument is never a
    fresh position of the opposite side for the full fill quantity. *)
Lemma reduction_outcome_not_fresh ps ps' pid ex q p t t' :
  ps !! pid = Some ex -> reduction_outcome ps ps' pid ex q p t ->
  ps' !! pid <> Some (new_Position pid (opposite ex.(side)) q p t').
Proof.
  intros Hpos [E | [[_ [_ E]] | [[_ [_ E]] | [_ [Hz E]]]]]; subst ps'.
  - rewrite Hpos. intros H. apply (f_equal (option_map side)) in H.
    simpl in H. destruct (side ex); discriminate.
  - rewrite lookup_insert_eq. intros H. apply (f_equal (option_map side)) in H.
    simpl in H. destruct (side ex); discriminate.
  - rewrite lookup_delete_eq. discriminate.
  - rewrite lookup_insert_eq. intros H. apply (f_equal (option_map quantity)) in H.
    simpl in H. injection H as H.
    apply Hz. assert (H0 : quantity ex == 0).
    { assert (H1 : quantity ex == q - (q - quantity ex)) by ring.
      rewrite H in H1. rewrite H1. ring. }
    rewrite H0. ring.
Qed.

(** C7: a BUY signal against a short position, or a SELL signal against a
    long position, goes through the ledger's reduction path for the units
    the engine fills ([position_size_usd / execution_price] for a BUY, the
    whole long for a SELL, which the engine closes with [close_position]):
    afterwards the position of the instrument is unchanged (no fill),
    reduced by the filled quantity, closed, or reversed to the filled
    quantity minus the open quantity at the fill price; in particular it
    is never a fresh opposite-side position of the full filled quantity. *)
Theorem opposite_side_routing (eng : Engine) (sg : TradingSignal) (pid : string)
    (price : Q) (ts : Z) (strategy : Strategy) (now : Z) (pf : Portfolio) (ex : Position) :
  pf.(positions) !! pid = Some ex ->
  (sg.(signal) = S_BUY /\ ex.(side) = SELL) \/ (sg.(signal) = S_SELL /\ ex.(side) = BUY) ->
  let ep := execution_price_of eng sg.(signal) price in
  let q := match sg.(signal) with
           | S_BUY => strategy.(calculate_position_size) pf.(cash_balance) ep sg / ep
           | _ => ex.(quantity)
           end in
  let ps' := (snd (execute_signal eng sg pid price ts strategy now pf)).(positions) in
  reduction_outcome pf.(positions) ps' pid ex q ep ts /\
  forall t', ps' !! pid <> Some (new_Position pid (opposite ex.(side)) q ep t').
Proof.
  intros Hpos Hcase. cbn zeta.
  assert (Hout : reduction_outcome pf.(positions)
    (snd (execute_signal eng sg pid price ts strategy now pf)).(positions) pid ex
    (match sg.(signal) with
     | S_BUY => strategy.(calculate_position_size) pf.(cash_balance)
                  (execution_price_of eng sg.(signal) price) sg
                / execution_price_of eng sg.(signal) price
     | _ => ex.(quantity)
     end) (execution_price_of eng sg.(signal) price) ts).
  { unfold execute_signal, catch, gets, mbind, M_bind, mret, M_ret.
    destruct Hcase as [[Hk Hs] | [Hk Hs]]; rewrite Hk.
    - destruct (Qltb _ 10); [left; reflexivity|].
      unfold pydiv, raise, mret, M_ret.
      destruct (Qeq_bool _ 0); [left; reflexivity|].
      destruct (Qle_bool _ _); [|left; reflexivity].
      match goal with |- context [add_position ?a ?b ?c ?d ?e ?f pf] =>
        pose proof (add_position_opposite_outcome pf a b c d ts f ex Hpos) as Ho;
        destruct (add_position a b c d e f pf) as [r s'] eqn:E end.
      rewrite Hs in Ho. specialize (Ho ltac:(discriminate)). simpl in Ho.
      destruct r; exact Ho.
    - destruct (Qltb _ 10); [left; reflexivity|].
      unfold get_position. rewrite Hpos, Hs. simpl.
      match goal with |- context [close_position ?a ?b ?c pf] =>
        pose proof (close_position_positions pf a b c ex Hpos) as Ho;
        destruct (close_position a b c pf) as [r s'] eqn:E end.
      simpl in Ho. unfold reduction_outcome.
      destruct Ho as [Ho | [Hz Ho]]; destruct r; simpl; rewrite Ho; auto;
        right; right; left; repeat split; try reflexivity; exact Hz. }
  split; [exact Hout|]. intros t'. exact (reduction_outcome_not_fresh _ _ _ _ _ _ _ t' Hpos Hout).
Qed.

(** A short of 10 at 100; a BUY signal sized to $1000 at 100 (slippage 0):
    the fill of 10 units closes the short. *)
Lemma opposite_side_routing_witness :
  let pf := mkPortfolio 10000 11000
              {[ "BTC-USD" := new_Position "BTC-USD" SELL 10 100 0 ]} [] 1000 in
  let eng := mkEngine 10000 0 0 in
  let sg := mkTradingSignal S_BUY 1 None None [] in
  let strat := mkStrategy "base" 1 (fun _ => Ok sg) (base_calculate_position_size 1000)
                 (base_should_exit_position (5 # 100) (10 # 100)) [] in
  reduction_outcome pf.(positions)
    (snd (execute_signal eng sg "BTC-USD" 100 1 strat 1 pf)).(positions)
    "BTC-USD" (new_Position "BTC-USD" SELL 10 100 0)
    (base_calculate_position_size 1000 11000 (execution_price_of eng S_BUY 100) sg
     / execution_price_of eng S_BUY 100)
    (execution_price_of eng S_BUY 100) 1 /\
  (snd (execute_signal eng sg "BTC-USD" 100 1 strat 1 pf)).(positions) = ∅.
Proof.
  cbn zeta. split.
  - refine (proj1 (opposite_side_routing _ _ "BTC-USD" 100 1 _ 1 _
                    (new_Position "BTC-USD" SELL 10 100 0) _ _)).
    + reflexivity.
    + left; split; reflexivity.
  - vm_compute. reflexivity.
Defined.

(** ** Simulation loop *)

Definition default_bar : Bar := mkBar 0 0 0 0 0 0.

(** C8 (as amended): when the signal-generation call raises at bar [i], the
    iteration marks the positions, records the equity snapshot of bar [i],
    logs no signal, executes nothing, skips the exit check, does not fail,
    and the loop goes on with the next bar from the marked ledger. *)
Theorem signal_failure_skips_bar (eng : Engine) (strategy : Strategy)
    (market_data : list Bar) (pid : string) (clock : nat -> Z) (acc : Logs)
    (i : nat) (rest : list nat) (pf : Portfolio) (e : Exn) :
  strategy.(generate_signal) (take (S i) market_data) = Err e ->
  let bar := default default_bar (market_data !! i) in
  let pf' := snd (update_positions {[ pid := bar.(bar_close) ]} pf) in
  let snap := mkSnapshot bar.(bar_time) (get_total_value pf') pf'.(cash_balance)
                (get_total_invested pf') in
  backtest_step eng strategy market_data pid clock acc i pf = (Ok (push_value acc snap), pf') /\
  backtest_loop eng strategy market_data pid clock (i :: rest) acc pf =
    backtest_loop eng strategy market_data pid clock rest (push_value acc snap) pf'.
Proof.
  intros Hsig. cbn zeta.
  assert (Hstep : backtest_step eng strategy market_data pid clock acc i pf =
    (Ok (push_value acc (mkSnapshot (default default_bar (market_data !! i)).(bar_time)
          (get_total_value (snd (update_positions
             {[ pid := (default default_bar (market_data !! i)).(bar_close) ]} pf)))
          (snd (update_positions
             {[ pid := (default default_bar (market_data !! i)).(bar_close) ]} pf)).(cash_balance)
          (get_total_invested (snd (update_positions
             {[ pid := (default default_bar (market_data !! i)).(bar_close) ]} pf))))),
     snd (update_positions {[ pid := (default default_bar (market_data !! i)).(bar_close) ]} pf))).
  { unfold backtest_step, mbind, M_bind, gets, mret, M_ret.
    rewrite Hsig. reflexivity. }
  split; [exact Hstep|].
  simpl. unfold mbind at 1, M_bind at 1. rewrite Hstep. reflexivity.
Qed.

(** Two bars, warm-up of one bar, a strategy whose signal call always
    raises: the iteration of bar 1 goes through. *)
Lemma signal_failure_skips_bar_witness :
  let strat := mkStrategy "failing" 1 (fun _ => Err StrategyException)
                 (base_calculate_position_size 100)
                 (base_should_exit_position (5 # 100) (10 # 100)) [] in
  let bars := [mkBar 0 100 100 100 100 1; mkBar 86400 100 100 100 101 1] in
  let pf := new_Portfolio 10000 1000 in
  let bar := default default_bar (bars !! 1%nat) in
  let pf' := snd (update_positions {[ "BTC-USD" := bar.(bar_close) ]} pf) in
  let snap := mkSnapshot bar.(bar_time) (get_total_value pf') pf'.(cash_balance)
                (get_total_invested pf') in
  backtest_step (mkEngine 10000 0 0) strat bars "BTC-USD" (fun _ => 0%Z) empty_logs 1 pf
    = (Ok (push_value empty_logs snap), pf') /\
  backtest_loop (mkEngine 10000 0 0) strat bars "BTC-USD" (fun _ => 0%Z) [1%nat] empty_logs pf =
    backtest_loop (mkEngine 10000 0 0) strat bars "BTC-USD" (fun _ => 0%Z) []
      (push_value empty_logs snap) pf'.
Proof.
  cbn zeta. apply signal_failure_skips_bar with (e := StrategyException). reflexivity.
Defined.

(** C8 counterexample: the exit-check call is not guarded per bar. A
    strategy that buys at every bar and whose exit check raises: once a
    position is open, the exception aborts the whole run with
    [BacktestError]. *)
Lemma exit_check_failure_aborts_run :
  let sg := mkTradingSignal S_BUY 1 None None [] in
  let strat := mkStrategy "exit_fails" 1 (fun _ => Ok sg)
                 (base_calculate_position_size 100)
                 (fun _ _ _ _ => Err StrategyException) [] in
  let bars := [mkBar 0 100 100 100 100 1; mkBar 86400 100 100 100 100 1;
               mkBar 172800 100 100 100 101 1] in
  fst (run_backtest (mkEngine 10000 (5 # 1000) (1 # 1000)) strat bars "BTC-USD"
         (fun _ => 0%Z) (new_Portfolio 10000 1000)) = Err BacktestError.
Proof. vm_compute. reflexivity. Qed.

(** ** Metrics *)

(** C9 (as amended): when the equity curve has at least one snapshot, the
    metrics computation returns a report; an empty trade log gives win
    rate, profit factor, average win and average loss 0, and a zero (or
    undefined) standard deviation of the per-step returns gives a Sharpe
    ratio of 0. *)
Theorem degenerate_metrics (eng : Engine) (logs : Logs) (market_data : list Bar)
    (strategy : Strategy) :
  logs.(log_values) <> [] ->
  exists r, calculate_results eng logs market_data strategy = Some r /\
    (logs.(log_trades) = [] ->
       r.(win_rate) = 0 /\ r.(profit_factor) = 0 /\ r.(avg_win) = 0 /\ r.(avg_loss) = 0) /\
    (let rs := pct_change (map snap_portfolio_value logs.(log_values)) in
     q_std rs = Some 0%R \/ q_std rs = None -> r.(sharpe_ratio) = 0%R).
Proof.
  intros Hne. unfold calculate_results.
  destruct (log_values logs) as [|first vs] eqn:Ev; [congruence|].
  eexists. split; [reflexivity|]. split.
  - intros Ht. rewrite Ht. simpl. auto.
  - cbn zeta. intros Hs. cbn [sharpe_ratio]. unfold sharpe_of.
    destruct Hs as [-> | ->]; [|reflexivity].
    destruct (Rlt_dec 0 0) as [H|]; [exfalso; exact (Rlt_irrefl 0 H)|reflexivity].
Qed.

(** A single snapshot: no trade, no return. *)
Lemma degenerate_metrics_witness :
  let logs := mkLogs [mkSnapshot 0 10000 10000 0] [] [] in
  let strat := mkStrategy "base" 1 (fun _ => Err StrategyException)
                 (base_calculate_position_size 100)
                 (base_should_exit_position (5 # 100) (10 # 100)) [] in
  exists r, calculate_results (mkEngine 10000 0 0) logs [mkBar 0 100 100 100 100 1] strat
              = Some r /\
    (logs.(log_trades) = [] ->
       r.(win_rate) = 0 /\ r.(profit_factor) = 0 /\ r.(avg_win) = 0 /\ r.(avg_loss) = 0) /\
    (let rs := pct_change (map snap_portfolio_value logs.(log_values)) in
     q_std rs = Some 0%R \/ q_std rs = None -> r.(sharpe_ratio) = 0%R).
Proof. cbn zeta. apply degenerate_metrics. discriminate. Defined.

(** C9 counterexample: a series exactly as long as the warm-up leaves the
    equity curve empty; [_calculate_results] returns an empty result with no
    win rate or other metric, and the run, whose trade log is empty, ends in
    [BacktestError] instead of a report. *)
Lemma empty_equity_curve_no_metrics :
  let strat := mkStrategy "base" 2 (fun _ => Err StrategyException)
                 (base_calculate_position_size 100)
                 (base_should_exit_position (5 # 100) (10 # 100)) [] in
  let bars := [mkBar 0 100 100 100 100 1; mkBar 86400 100 100 100 101 1] in
  calculate_results (mkEngine 10000 0 0) empty_logs bars strat = None /\
  fst (run_backtest (mkEngine 10000 0 0) strat bars "BTC-USD" (fun _ => 0%Z)
         (new_Portfolio 10000 1000)) = Err BacktestError.
Proof. vm_compute. split; reflexivity. Qed.

(** ** Determinism of a run

    Two ledger states [agree] when they coincide on everything the engine
    reads: initial capital, cash, positions and position limit. They may
    differ in the trade history, the only place where [datetime.now()]
    ends up. [indist m1 m2]: from agreeing states, [m1] and [m2] give equal
    results, agreeing states, and [m1] keeps the configuration. *)

Definition agree (s1 s2 : Portfolio) : Prop :=
  s1.(initial_capital) = s2.(initial_capital) /\ s1.(cash_balance) = s2.(cash_balance) /\
  s1.(positions) = s2.(positions) /\ s1.(max_position_size) = s2.(max_position_size).

Definition config (s : Portfolio) : Q * Q := (s.(initial_capital), s.(max_position_size)).

Definition indist {A} (m1 m2 : M A) : Prop :=
  forall s1 s2, agree s1 s2 ->
    fst (m1 s1) = fst (m2 s2) /\ agree (snd (m1 s1)) (snd (m2 s2)) /\
    config (snd (m1 s1)) = config s1.

Section Indist.

Lemma indist_ret {A} (a : A) : indist (mret a) (mret a).
Proof. intros s1 s2 H. repeat split; apply H. Qed.

Lemma indist_raise {A} (e : Exn) : @indist A (raise e) (raise e).
Proof. intros s1 s2 H. repeat split; apply H. Qed.

Lemma indist_bind {A B} (m1 m2 : M A) (f1 f2 : A -> M B) :
  indist m1 m2 -> (forall a, indist (f1 a) (f2 a)) -> indist (m1 ≫= f1) (m2 ≫= f2).
Proof.
  intros Hm Hf s1 s2 H. unfold mbind, M_bind.
  destruct (Hm s1 s2 H) as (Hr & Ha & Hc).
  destruct (m1 s1) as [[a|e] s1'], (m2 s2) as [r2 s2']; simpl in *; subst r2.
  - destruct (Hf a s1' s2' Ha) as (? & ? & Hc'). rewrite Hc' , Hc. auto.
  - auto.
Qed.

Lemma indist_catch {A} (m1 m2 : M A) (h1 h2 : Exn -> M A) :
  indist m1 m2 -> (forall e, indist (h1 e) (h2 e)) -> indist (catch m1 h1) (catch m2 h2).
Proof.
  intros Hm Hh s1 s2 H. unfold catch.
  destruct (Hm s1 s2 H) as (Hr & Ha & Hc).
  destruct (m1 s1) as [[a|e] s1'], (m2 s2) as [r2 s2']; simpl in *; subst r2.
  - auto.
  - destruct (Hh e s1' s2' Ha) as (? & ? & Hc'). rewrite Hc', Hc. auto.
Qed.

Lemma indist_get_state {A} (k1 k2 : Portfolio -> M A) :
  (forall s1 s2, agree s1 s2 -> indist (k1 s1) (k2 s2)) ->
  indist (get_state ≫= k1) (get_state ≫= k2).
Proof. intros Hk s1 s2 H. exact (Hk s1 s2 H s1 s2 H). Qed.

Lemma indist_gets {A} (f : Portfolio -> A) :
  (forall s1 s2, agree s1 s2 -> f s1 = f s2) -> indist (gets f) (gets f).
Proof. intros Hf s1 s2 H. simpl. rewrite (Hf s1 s2 H). auto. Qed.

Lemma indist_modify (f1 f2 : Portfolio -> Portfolio) :
  (forall s1 s2, agree s1 s2 -> agree (f1 s1) (f2 s2)) ->
  (forall s, config (f1 s) = config s) ->
  indist (modify f1) (modify f2).
Proof. intros Hf Hc s1 s2 H. simpl. auto. Qed.

Lemma indist_pydiv x y : indist (pydiv x y) (pydiv x y).
Proof. unfold pydiv. destruct (Qeq_bool y 0); [apply indist_raise | apply indist_ret]. Qed.

Lemma indist_add_cash d : indist (add_cash d) (add_cash d).
Proof.
  apply indist_modify; [|reflexivity].
  intros s1 s2 (?&Hc&?&?). unfold agree. simpl. rewrite Hc. repeat split; auto.
Qed.

Lemma indist_put_position pid pos : indist (put_position pid pos) (put_position pid pos).
Proof.
  apply indist_modify; [|reflexivity].
  intros s1 s2 (?&?&Hp&?). unfold agree. simpl. rewrite Hp. repeat split; auto.
Qed.

Lemma indist_del_position pid : indist (del_position pid) (del_position pid).
Proof.
  apply indist_modify; [|reflexivity].
  intros s1 s2 (?&?&Hp&?). unfold agree. simpl. rewrite Hp. repeat split; auto.
Qed.

Lemma indist_index_position pid : indist (index_position pid) (index_position pid).
Proof.
  intros s1 s2 H. unfold index_position. destruct H as (?&?&Hp&?).
  rewrite <- Hp. destruct (positions s1 !! pid); simpl; unfold agree; repeat split; auto.
Qed.

Lemma indist_record_trade pos ep q pnl n1 n2 :
  indist (record_trade pos ep q pnl n1) (record_trade pos ep q pnl n2).
Proof.
  unfold record_trade. apply indist_bind; [apply indist_pydiv|]. intros r.
  apply indist_modify; [|reflexivity].
  intros s1 s2 (?&?&?&?). unfold agree. simpl. repeat split; auto.
Qed.

Lemma indist_update_positions mp : indist (update_positions mp) (update_positions mp).
Proof.
  apply indist_modify; [|reflexivity].
  intros s1 s2 (?&?&Hp&?). unfold agree. simpl. rewrite Hp. repeat split; auto.
Qed.

End Indist.

Ltac indist_step :=
  first
    [ apply indist_ret | apply indist_raise | apply indist_pydiv | apply indist_add_cash
    | apply indist_put_position | apply indist_del_position | apply indist_index_position
    | apply indist_record_trade | apply indist_update_positions
    | apply indist_bind; [|intros ?]
    | apply indist_catch; [|intros ?]
    | case_match ].

Lemma add_position_indist pid s q p t n1 n2 :
  indist (add_position pid s q p (Some t) n1) (add_position pid s q p (Some t) n2).
Proof.
  unfold add_position. apply indist_get_state. intros pf1 pf2 (Hi&Hc&Hp&Hm).
  rewrite <- Hc, <- Hp, <- Hm. repeat indist_step.
Qed.

Lemma close_position_indist pid price n1 n2 :
  indist (close_position pid price n1) (close_position pid price n2).
Proof.
  unfold close_position. apply indist_get_state. intros pf1 pf2 (Hi&Hc&Hp&Hm).
  rewrite <- Hp. repeat indist_step.
Qed.

Ltac indist_step' :=
  first
    [ apply add_position_indist | apply close_position_indist
    | indist_step
    | apply indist_gets; intros ? ? (?&?&?&?);
      unfold get_total_value, get_total_invested, get_position; congruence ].

Lemma execute_signal_indist eng sg pid price ts strategy n1 n2 :
  indist (execute_signal eng sg pid price ts strategy n1)
         (execute_signal eng sg pid price ts strategy n2).
Proof. unfold execute_signal. repeat indist_step'. Qed.

Lemma backtest_step_indist eng strategy market_data pid clock1 clock2 acc i :
  indist (backtest_step eng strategy market_data pid clock1 acc i)
         (backtest_step eng strategy market_data pid clock2 acc i).
Proof.
  unfold backtest_step. repeat (apply execute_signal_indist || indist_step').
Qed.

Lemma backtest_loop_indist eng strategy market_data pid clock1 clock2 idx acc :
  indist (backtest_loop eng strategy market_data pid clock1 idx acc)
         (backtest_loop eng strategy market_data pid clock2 idx acc).
Proof.
  revert acc. induction idx as [|i idx IH]; intros acc; simpl.
  - apply indist_ret.
  - apply indist_bind; [apply backtest_step_indist | intros acc'; apply IH].
Qed.

(** [cfg_indist m1 m2]: from states with the same configuration (whatever
    their cash, positions and history), equal results, and both keep the
    configuration. *)
Definition cfg_indist {A} (m1 m2 : M A) : Prop :=
  forall s1 s2, config s1 = config s2 ->
    fst (m1 s1) = fst (m2 s2) /\ config (snd (m1 s1)) = config s1 /\
    config (snd (m2 s2)) = config s2.

Lemma cfg_indist_raise {A} (e : Exn) : @cfg_indist A (raise e) (raise e).
Proof. intros s1 s2 H. repeat split. Qed.

Lemma cfg_indist_catch {A} (m1 m2 : M A) (h1 h2 : Exn -> M A) :
  cfg_indist m1 m2 -> (forall e, cfg_indist (h1 e) (h2 e)) ->
  cfg_indist (catch m1 h1) (catch m2 h2).
Proof.
  intros Hm Hh s1 s2 H. unfold catch.
  destruct (Hm s1 s2 H) as (Hr & Hc1 & Hc2).
  destruct (m1 s1) as [[a|e] s1'], (m2 s2) as [r2 s2']; simpl in *; subst r2.
  - auto.
  - assert (Hc : config s1' = config s2') by congruence.
    destruct (Hh e s1' s2' Hc) as (? & Hc1' & Hc2'). rewrite Hc1', Hc2'. auto.
Qed.

Lemma agree_config s1 s2 : agree s1 s2 -> config s1 = config s2.
Proof. intros (Hi&_&_&Hm). unfold config. congruence. Qed.

Lemma cfg_indist_reset_bind {A} (k1 k2 : unit -> M A) :
  indist (k1 tt) (k2 tt) ->
  cfg_indist (modify reset ≫= k1) (modify reset ≫= k2).
Proof.
  intros Hk s1 s2 H. unfold mbind, M_bind, modify.
  assert (Ha : agree (reset s1) (reset s2)).
  { unfold config in H. injection H as Hi Hm. unfold agree, reset. simpl. auto. }
  destruct (Hk _ _ Ha) as (Hr & Ha' & Hc).
  pose proof (agree_config _ _ Ha') as Hc2.
  split; [exact Hr|]. split; [exact Hc|]. rewrite <- Hc2, Hc. exact H.
Qed.

Lemma run_backtest_cfg_indist eng strategy market_data pid clock1 clock2 :
  cfg_indist (run_backtest eng strategy market_data pid clock1)
             (run_backtest eng strategy market_data pid clock2).
Proof.
  unfold run_backtest. apply cfg_indist_catch; [|intros; apply cfg_indist_raise].
  destruct market_data as [|b bs]; [apply cfg_indist_raise|].
  apply cfg_indist_reset_bind.
  repeat (apply backtest_loop_indist || indist_step').
Qed.

(** C6: determinism of a run. After [reset()], running the engine on the
    same series with the same strategy and then running it again from the
    state the first run left gives the same result, field by field (the
    equity curve, the signal and trade logs and every metric), whatever the
    wall-clock times ([clock1], [clock2]) seen by the two runs. *)
Theorem run_backtest_reset_deterministic (eng : Engine) (strategy : Strategy)
    (market_data : list Bar) (pid : string) (clock1 clock2 : nat -> Z) (pf : Portfolio) :
  let run1 := run_backtest eng strategy market_data pid clock1 (reset pf) in
  let run2 := run_backtest eng strategy market_data pid clock2 (snd run1) in
  fst run2 = fst run1.
Proof.
  cbn zeta.
  destruct (run_backtest_cfg_indist eng strategy market_data pid clock1 clock1
              (reset pf) (reset pf) eq_refl) as (_ & Hc1 & _).
  destruct (run_backtest_cfg_indist eng strategy market_data pid clock2 clock1
              (snd (run_backtest eng strategy market_data pid clock1 (reset pf)))
              (reset pf) Hc1) as (Hr & _ & _).
  exact Hr.
Qed.

(** * Further properties of the ledger, the strategies and the engine *)

Lemma Qeq_bool_false_neq x y : ~ x == y -> Qeq_bool x y = false.
Proof.
  intros H. destruct (Qeq_bool x y) eqn:E; [|reflexivity].
  apply Qeq_bool_eq in E. contradiction.
Qed.

(** [close_position] on a product without an open position returns [None]
    and leaves cash, positions and trade history as they were. *)
Theorem close_position_absent (pf : Portfolio) pid price now :
  pf.(positions) !! pid = None ->
  close_position pid price now pf = (Ok None, pf).
Proof. intros H. unfold_M. rewrite H. reflexivity. Qed.

(** [close_position] on an open position of non-zero cost basis
    ([entry_price * quantity]) returns the PnL of the whole position,
    removes it, appends exactly one trade record, and credits the cash with
    [quantity * price] for a long but only with the PnL for a short. *)
Theorem close_position_present (pf : Portfolio) pid price now pos :
  pf.(positions) !! pid = Some pos ->
  ~ pos.(entry_price) * pos.(quantity) == 0 ->
  let pnl := calculate_pnl pos price pos.(quantity) in
  let r := close_position pid price now pf in
  fst r = Ok (Some pnl) /\
  (snd r).(positions) = delete pid pf.(positions) /\
  (snd r).(trade_history) = pf.(trade_history) ++
    [mkTradeRecord pos.(product_id) pos.(side) pos.(quantity) pos.(entry_price) price
       pos.(entry_time) now pnl (pnl / (pos.(entry_price) * pos.(quantity)) * 100)] /\
  (snd r).(cash_balance) = pf.(cash_balance) +
    match pos.(side) with BUY => pos.(quantity) * price | SELL => pnl end /\
  (snd r).(initial_capital) = pf.(initial_capital) /\
  (snd r).(max_position_size) = pf.(max_position_size).
Proof.
  intros H Hz. cbn zeta. unfold_M. rewrite H, (Qeq_bool_false_neq _ _ Hz).
  destruct (side pos); simpl; repeat split.
Qed.

(** [close_position] on a position whose cost basis [entry_price * quantity]
    is 0 raises [ZeroDivisionError] in [_record_trade] (the return
    percentage) before anything is changed: the position stays open. *)
Theorem close_position_zero_cost (pf : Portfolio) pid price now pos :
  pf.(positions) !! pid = Some pos ->
  pos.(entry_price) * pos.(quantity) == 0 ->
  close_position pid price now pf = (Err ZeroDivisionError, pf).
Proof.
  intros H Hz. unfold_M. rewrite H.
  apply Qeq_bool_iff in Hz. rewrite Hz. reflexivity.
Qed.

Lemma prechecks_pass (pf : Portfolio) s q p :
  (s = BUY -> q * p <= pf.(cash_balance)) -> q * p <= pf.(max_position_size) ->
  (bool_decide (s = BUY) && Qgtb (q * p) pf.(cash_balance))%bool = false /\
  Qgtb (q * p) pf.(max_position_size) = false.
Proof.
  intros Hc Hm. split; [|apply Qgtb_false; exact Hm].
  destruct s; simpl; [|reflexivity]. apply Qgtb_false, Hc. reflexivity.
Qed.

Ltac pass_prechecks Hc Hm :=
  let H1 := fresh in let H2 := fresh in
  destruct (prechecks_pass _ _ _ _ Hc Hm) as [H1 H2]; rewrite H1; simpl; rewrite H2.

(** [add_position] for a product without a position, once the cash and
    size checks pass: it stores a fresh position (quantity, entry price,
    entry time [timestamp] or now, no mark, realized PnL 0), debits the
    notional for a BUY or credits it for a SELL, records no trade, and
    returns the stored position. *)
Theorem add_position_open (pf : Portfolio) pid s q p ts now :
  pf.(positions) !! pid = None ->
  (s = BUY -> q * p <= pf.(cash_balance)) -> q * p <= pf.(max_position_size) ->
  let pos := new_Position pid s q p (default now ts) in
  add_position pid s q p ts now pf =
    (Ok pos, mkPortfolio pf.(initial_capital)
               (pf.(cash_balance) + match s with BUY => - (q * p) | SELL => q * p end)
               (<[pid := pos]> pf.(positions)) pf.(trade_history) pf.(max_position_size)).
Proof.
  intros H Hc Hm. cbn zeta. unfold add_position, mbind, M_bind, get_state, raise.
  pass_prechecks Hc Hm. rewrite H.
  unfold_M. destruct s; simpl; rewrite lookup_insert_eq; reflexivity.
Qed.

(** [add_position] on the side of the existing position: the quantities
    add up, the new entry price is the quantity-weighted average (so entry
    price times quantity is the sum of the two costs), no trade is recorded,
    the cash moves by the notional, and the position keeps its previous
    mark ([current_price] and [unrealized_pnl] are not recomputed). *)
Theorem add_position_same_side (pf : Portfolio) pid s q p ts now ex :
  pf.(positions) !! pid = Some ex -> ex.(side) = s ->
  (s = BUY -> q * p <= pf.(cash_balance)) -> q * p <= pf.(max_position_size) ->
  ~ ex.(quantity) + q == 0 ->
  exists pos,
    add_position pid s q p ts now pf =
      (Ok pos, mkPortfolio pf.(initial_capital)
                 (pf.(cash_balance) + match s with BUY => - (q * p) | SELL => q * p end)
                 (<[pid := pos]> pf.(positions)) pf.(trade_history) pf.(max_position_size)) /\
    pos.(quantity) = ex.(quantity) + q /\
    pos.(entry_price) * pos.(quantity) == ex.(quantity) * ex.(entry_price) + q * p /\
    pos.(side) = ex.(side) /\ pos.(entry_time) = ex.(entry_time) /\
    pos.(current_price) = ex.(current_price) /\
    pos.(unrealized_pnl) = ex.(unrealized_pnl) /\
    pos.(realized_pnl) = ex.(realized_pnl).
Proof.
  intros H Hs Hc Hm Hz. unfold add_position, mbind, M_bind, get_state, raise.
  pass_prechecks Hc Hm. rewrite H.
  rewrite bool_decide_eq_false_2 by (intros Hn; apply Hn; exact Hs).
  unfold_M. rewrite (Qeq_bool_false_neq _ _ Hz).
  eexists. split.
  - destruct s; simpl; rewrite lookup_insert_eq; reflexivity.
  - simpl. repeat split. field. exact Hz.
Qed.

(** [add_position] on the opposite side for less than the open quantity:
    the position shrinks by the filled quantity and accumulates the PnL of
    that quantity in [realized_pnl], one trade record is appended, and the
    cash moves by that PnL, added for a BUY and subtracted for a SELL. *)
Theorem add_position_partial_close (pf : Portfolio) pid s q p ts now ex :
  pf.(positions) !! pid = Some ex -> ex.(side) <> s ->
  (s = BUY -> q * p <= pf.(cash_balance)) -> q * p <= pf.(max_position_size) ->
  q < ex.(quantity) -> ~ ex.(entry_price) * q == 0 ->
  let pnl := calculate_pnl ex p q in
  let pos := set_realized_pnl (set_quantity ex (ex.(quantity) - q)) (ex.(realized_pnl) + pnl) in
  add_position pid s q p ts now pf =
    (Ok pos, mkPortfolio pf.(initial_capital)
               (pf.(cash_balance) + match s with BUY => pnl | SELL => - pnl end)
               (<[pid := pos]> pf.(positions))
               (pf.(trade_history) ++
                  [mkTradeRecord ex.(product_id) ex.(side) q ex.(entry_price) p
                     ex.(entry_time) now pnl (pnl / (ex.(entry_price) * q) * 100)])
               pf.(max_position_size)).
Proof.
  intros H Hs Hc Hm Hlt Hz. cbn zeta. unfold add_position, mbind, M_bind, get_state, raise.
  pass_prechecks Hc Hm. rewrite H, bool_decide_eq_true_2 by exact Hs.
  assert (Hle : Qle_bool (quantity ex) q = false).
  { destruct (Qle_bool (quantity ex) q) eqn:E; [|reflexivity].
    apply Qle_bool_iff in E. exfalso. apply (Qlt_not_le _ _ Hlt E). }
  rewrite Hle. unfold_M. rewrite (Qeq_bool_false_neq _ _ Hz).
  destruct s; simpl; rewrite lookup_insert_eq; reflexivity.
Qed.

(** [add_position] on the opposite side for exactly the open quantity:
    the position is deleted, one trade record is appended and the cash is
    moved by the PnL, after which [return self.positions[product_id]]
    raises [KeyError]; the ledger keeps the changes. *)
Theorem add_position_exact_close (pf : Portfolio) pid s q p ts now ex :
  pf.(positions) !! pid = Some ex -> ex.(side) <> s ->
  (s = BUY -> q * p <= pf.(cash_balance)) -> q * p <= pf.(max_position_size) ->
  q == ex.(quantity) -> ~ ex.(entry_price) * ex.(quantity) == 0 ->
  let pnl := calculate_pnl ex p ex.(quantity) in
  add_position pid s q p ts now pf =
    (Err KeyError, mkPortfolio pf.(initial_capital)
               (pf.(cash_balance) + match s with BUY => pnl | SELL => - pnl end)
               (delete pid pf.(positions))
               (pf.(trade_history) ++
                  [mkTradeRecord ex.(product_id) ex.(side) ex.(quantity) ex.(entry_price) p
                     ex.(entry_time) now pnl
                     (pnl / (ex.(entry_price) * ex.(quantity)) * 100)])
               pf.(max_position_size)).
Proof.
  intros H Hs Hc Hm Heq Hz. cbn zeta. unfold add_position, mbind, M_bind, get_state, raise.
  pass_prechecks Hc Hm. rewrite H, bool_decide_eq_true_2 by exact Hs.
  assert (Hle : Qle_bool (quantity ex) q = true).
  { apply Qle_bool_iff. rewrite Heq. apply Qle_refl. }
  assert (Hgt : Qgtb q (quantity ex) = false).
  { apply Qgtb_false. rewrite Heq. apply Qle_refl. }
  rewrite Hle. unfold_M. rewrite (Qeq_bool_false_neq _ _ Hz). simpl.
  rewrite Hgt. destruct s; simpl; rewrite lookup_delete_eq; reflexivity.
Qed.

(** [update_positions] never fails and only marks positions: cash, trade
    history and configuration are kept; a product without a price keeps
    its position as it was; a product with a price keeps the same set of
    open positions, with side, quantity, entry price and realized PnL
    unchanged, current price set to the price, unrealized PnL equal to the
    PnL [_calculate_pnl] would realize by closing the whole position at
    that price, and market value [price * quantity]. *)
Theorem update_positions_marks (pf : Portfolio) (prices : gmap string Q) :
  let pf' := snd (update_positions prices pf) in
  fst (update_positions prices pf) = Ok tt /\
  pf'.(cash_balance) = pf.(cash_balance) /\
  pf'.(trade_history) = pf.(trade_history) /\
  pf'.(initial_capital) = pf.(initial_capital) /\
  pf'.(max_position_size) = pf.(max_position_size) /\
  (forall k, prices !! k = None -> pf'.(positions) !! k = pf.(positions) !! k) /\
  (forall k p, prices !! k = Some p ->
     (pf'.(positions) !! k = None <-> pf.(positions) !! k = None) /\
     forall pos, pf.(positions) !! k = Some pos ->
       exists pos', pf'.(positions) !! k = Some pos' /\
         pos'.(product_id) = pos.(product_id) /\ pos'.(side) = pos.(side) /\
         pos'.(quantity) = pos.(quantity) /\ pos'.(entry_price) = pos.(entry_price) /\
         pos'.(entry_time) = pos.(entry_time) /\ pos'.(realized_pnl) = pos.(realized_pnl) /\
         pos'.(current_price) = Some p /\
         pos'.(unrealized_pnl) = Some (calculate_pnl pos p pos.(quantity)) /\
         get_market_value pos' = p * pos.(quantity)).
Proof.
  cbn zeta. unfold update_positions, modify. simpl.
  split; [reflexivity|]. split; [reflexivity|]. split; [reflexivity|].
  split; [reflexivity|]. split; [reflexivity|]. split.
  - intros k Hk. rewrite map_lookup_imap. destruct (positions pf !! k); simpl;
      [rewrite Hk|]; reflexivity.
  - intros k p Hk. split.
    + rewrite map_lookup_imap. destruct (positions pf !! k); simpl; split;
        intros; congruence.
    + intros pos Hpos. rewrite map_lookup_imap, Hpos. simpl. rewrite Hk.
      eexists. split; [reflexivity|]. unfold calculate_pnl, get_market_value.
      simpl. repeat split.
Qed.

Definition cost_basis (ps : gmap string Position) : Q :=
  map_fold (fun _ pos acc => pos.(entry_price) * pos.(quantity) + acc) 0 ps.

Definition engine_inv (pid : string) (pf : Portfolio) : Prop :=
  (pf.(positions) = ∅ \/
   exists pos, pf.(positions) = {[pid := pos]} /\ pos.(side) = BUY) /\
  pf.(cash_balance) + cost_basis pf.(positions) == pf.(initial_capital) + sum_realized_pnl pf.

Lemma cost_basis_empty : cost_basis ∅ = 0.
Proof. apply map_fold_empty. Qed.
Lemma cost_basis_singleton k pos : cost_basis {[k := pos]} = pos.(entry_price) * pos.(quantity) + 0.
Proof. unfold cost_basis. rewrite map_fold_singleton. reflexivity. Qed.

Lemma map_imap_singleton_Some (g : string -> Position -> Position) i x :
  map_imap (fun k v => Some (g k v)) ({[i := x]} : gmap string Position) = {[i := g i x]}.
Proof.
  rewrite <- insert_empty, map_imap_insert, map_imap_empty. reflexivity.
Qed.

Lemma mark_conserved pid price pf :
  engine_inv pid pf -> conserved (snd (update_positions {[pid := price]} pf)).
Proof.
  intros [[E|[pos [E Hs]]] H]; unfold conserved, get_total_value, get_total_invested,
    sum_unrealized_pnl, update_positions, modify; simpl; rewrite E in *.
  - rewrite map_imap_empty, !map_fold_empty. unfold sum_realized_pnl in *. simpl.
    rewrite cost_basis_empty in H. rewrite H. ring.
  - rewrite map_imap_singleton_Some, lookup_singleton_eq, !map_fold_singleton.
    rewrite cost_basis_singleton in H. unfold sum_realized_pnl in *. simpl. rewrite Hs.
    unfold get_market_value. simpl. rewrite <- H. ring.
Qed.

Definition preserves {A} (P : Portfolio -> Prop) (m : M A) : Prop :=
  forall s, P s -> P (snd (m s)).

Section Preserves.
Variable P : Portfolio -> Prop.

Lemma preserves_ret {A} (a : A) : preserves P (mret a).
Proof. intros s H. exact H. Qed.
Lemma preserves_raise {A} (e : Exn) : @preserves A P (raise e).
Proof. intros s H. exact H. Qed.
Lemma preserves_gets {A} (f : Portfolio -> A) : preserves P (gets f).
Proof. intros s H. exact H. Qed.
Lemma preserves_pydiv x y : preserves P (pydiv x y).
Proof. intros s H. unfold pydiv. destruct (Qeq_bool y 0); exact H. Qed.
Lemma preserves_bind {A B} (m : M A) (f : A -> M B) :
  preserves P m -> (forall a, preserves P (f a)) -> preserves P (m ≫= f).
Proof.
  intros Hm Hf s H. unfold mbind, M_bind.
  specialize (Hm s H). destruct (m s) as [[a|e] s']; simpl in *; [apply Hf|]; exact Hm.
Qed.
Lemma preserves_catch {A} (m : M A) (h : Exn -> M A) :
  preserves P m -> (forall e, preserves P (h e)) -> preserves P (catch m h).
Proof.
  intros Hm Hh s H. unfold catch.
  specialize (Hm s H). destruct (m s) as [[a|e] s']; simpl in *; [|apply Hh]; exact Hm.
Qed.
End Preserves.

Lemma update_positions_engine_inv pid prices :
  preserves (engine_inv pid) (update_positions prices).
Proof.
  intros pf [[E|[pos [E Hs]]] H]; unfold engine_inv, update_positions, modify; simpl;
    rewrite E in *.
  - rewrite map_imap_empty. split; [left; reflexivity|]. exact H.
  - rewrite map_imap_singleton_Some. split.
    + right. eexists. split; [reflexivity|]. destruct (prices !! pid); exact Hs.
    + rewrite cost_basis_singleton in *. unfold sum_realized_pnl in *. simpl.
      destruct (prices !! pid); exact H.
Qed.

Lemma foldr_pnl_shift (a : Q) (l : list TradeRecord) :
  foldr (fun t acc => t.(tr_pnl) + acc) a l ==
  foldr (fun t acc => t.(tr_pnl) + acc) 0 l + a.
Proof.
  induction l as [|t l IH]; simpl; [ring|]. rewrite IH. ring.
Qed.

Lemma close_position_engine_inv pid price now :
  preserves (engine_inv pid) (close_position pid price now).
Proof.
  intros pf [[E|[pos [E Hs]]] H].
  - unfold_M. rewrite E, lookup_empty. split; [left; exact E|exact H].
  - unfold_M. rewrite E, lookup_singleton_eq.
    destruct (Qeq_bool _ 0); [split; [right; exists pos; auto|exact H]|].
    rewrite Hs. unfold engine_inv, set_positions, set_cash, set_history. simpl.
    rewrite E, delete_singleton_eq. split; [left; reflexivity|].
    rewrite E, cost_basis_singleton in H. rewrite cost_basis_empty.
    unfold sum_realized_pnl in *. simpl in *. rewrite foldr_app. simpl.
    unfold calculate_pnl. rewrite Hs, foldr_pnl_shift.
    set (F := foldr _ 0 _) in *. rewrite Qplus_assoc, <- H. ring.
Qed.

Lemma add_position_buy_engine_inv pid q p ts now :
  preserves (engine_inv pid) (add_position pid BUY q p ts now).
Proof.
  intros pf Hinv. pose proof Hinv as [[E|[pos [E Hs]]] H].
  - unfold add_position, mbind, M_bind, get_state, raise.
    destruct (_ && _)%bool; [exact Hinv|]. destruct (Qgtb _ _); [exact Hinv|].
    rewrite E, lookup_empty. unfold_M. simpl. rewrite E, insert_empty, lookup_singleton_eq.
    unfold engine_inv. simpl. split; [right; eexists; split; reflexivity|].
    rewrite E, cost_basis_empty in H. rewrite cost_basis_singleton.
    unfold sum_realized_pnl in *. simpl in *. rewrite <- H. ring.
  - unfold add_position, mbind, M_bind, get_state, raise.
    destruct (_ && _)%bool; [exact Hinv|]. destruct (Qgtb _ _); [exact Hinv|].
    rewrite E, lookup_singleton_eq, Hs. simpl.
    unfold_M. destruct (Qeq_bool (quantity pos + q) 0) eqn:Z0; [exact Hinv|].
    simpl. rewrite E, insert_singleton_eq, lookup_singleton_eq.
    unfold engine_inv. simpl. split; [right; eexists; split; [reflexivity|exact Hs]|].
    rewrite E, cost_basis_singleton in H. rewrite cost_basis_singleton.
    unfold sum_realized_pnl in *. simpl in *. rewrite <- H. field.
    intros Hz. apply Qeq_bool_iff in Hz. congruence.
Qed.

Ltac pres_step :=
  match goal with
  | |- preserves _ (add_position _ BUY _ _ _ _) => apply add_position_buy_engine_inv
  | |- preserves _ (close_position _ _ _) => apply close_position_engine_inv
  | |- preserves _ (update_positions _) => apply update_positions_engine_inv
  | |- preserves _ (mret _) => apply preserves_ret
  | |- preserves _ (raise _) => apply preserves_raise
  | |- preserves _ (gets _) => apply preserves_gets
  | |- preserves _ (pydiv _ _) => apply preserves_pydiv
  | |- preserves _ (catch _ _) => apply preserves_catch; [|intro]
  | |- preserves _ (_ ≫= _) => apply preserves_bind; [|intro]
  | |- preserves _ (if ?b then _ else _) => destruct b
  | |- preserves _ (match ?x with _ => _ end) => destruct x
  end.

Lemma execute_signal_engine_inv eng sg pid price ts strategy now :
  preserves (engine_inv pid) (execute_signal eng sg pid price ts strategy now).
Proof. unfold execute_signal. repeat pres_step. Qed.

Lemma backtest_step_engine_inv eng strategy market_data pid clock acc i :
  preserves (engine_inv pid) (backtest_step eng strategy market_data pid clock acc i).
Proof.
  unfold backtest_step. cbn zeta.
  repeat (apply execute_signal_engine_inv || pres_step).
Qed.

Lemma backtest_loop_engine_inv eng strategy market_data pid clock idx acc :
  preserves (engine_inv pid) (backtest_loop eng strategy market_data pid clock idx acc).
Proof.
  revert acc. induction idx as [|i idx IH]; intros acc; simpl.
  - apply preserves_ret.
  - apply preserves_bind; [apply backtest_step_engine_inv|intros a; apply IH].
Qed.

Lemma reset_engine_inv pid pf : engine_inv pid (reset pf).
Proof.
  unfold engine_inv, reset. simpl. split; [left; reflexivity|].
  rewrite cost_basis_empty. reflexivity.
Qed.

(** The backtest loop, started from a reset ledger, only ever holds at most
    one position, a long on the backtested product, and keeps
    [cash + Σ entry_price * quantity == initial_capital + Σ realized PnL]
    after any number of bars; marking that ledger at any price (the first
    action of the next bar) yields a ledger that satisfies the conservation
    law [cash + Σ market value == initial + realized + unrealized]. *)
Theorem backtest_loop_conserved_marks eng strategy market_data pid clock idx acc pf price :
  let pf' := snd (backtest_loop eng strategy market_data pid clock idx acc (reset pf)) in
  engine_inv pid pf' /\ conserved (snd (update_positions {[pid := price]} pf')).
Proof.
  cbn zeta. pose proof (backtest_loop_engine_inv eng strategy market_data pid clock idx acc
    (reset pf) (reset_engine_inv pid pf)) as H.
  split; [exact H|apply mark_conserved, H].
Qed.

(** At the end of [run_backtest] on non-empty data (whether it succeeds or
    raises) the ledger holds no position or a single long on the product,
    and [cash + Σ entry_price * quantity == initial_capital + Σ realized
    PnL]. *)
Theorem run_backtest_engine_inv eng strategy market_data pid clock pf :
  market_data <> [] ->
  engine_inv pid (snd (run_backtest eng strategy market_data pid clock pf)).
Proof.
  intros Hne. unfold run_backtest, catch.
  destruct market_data as [|b bs]; [congruence|].
  unfold mbind, M_bind, modify. simpl.
  pose proof (reset_engine_inv pid pf) as H0.
  destruct (Nat.ltb _ _); [exact H0|].
  pose proof (backtest_loop_engine_inv eng strategy (b :: bs) pid clock
    (seq (get_required_history strategy) (S (length bs) - get_required_history strategy))
    empty_logs (reset pf) H0) as H1.
  destruct (backtest_loop _ _ _ _ _ _ _ _) as [[l|e] s']; simpl in *; [|exact H1].
  destruct (calculate_results _ _ _ _); exact H1.
Qed.

Lemma Qltb_false x y : Qltb x y = false -> y <= x.
Proof. unfold Qltb. rewrite negb_false_iff. apply Qle_bool_iff. Qed.
Lemma Qltb_true x y : Qltb x y = true -> x < y.
Proof.
  unfold Qltb. rewrite negb_true_iff. intros H. apply Qle_bool_false in H. exact H.
Qed.

Lemma list_min_le x xs : list_min x xs <= x /\ Forall (fun y => list_min x xs <= y) xs.
Proof.
  unfold list_min. revert x. induction xs as [|b xs IH]; intros x; simpl.
  - split; [apply Qle_refl|constructor].
  - destruct (IH (if Qltb b x then b else x)) as [H1 H2].
    destruct (Qltb b x) eqn:E.
    + apply Qltb_true in E. split; [apply Qle_trans with b; [exact H1|apply Qlt_le_weak, E]|].
      constructor; assumption.
    + apply Qltb_false in E. split; [exact H1|].
      constructor; [apply Qle_trans with x; assumption|assumption].
Qed.

Lemma list_max_ge x xs : x <= list_max x xs /\ Forall (fun y => y <= list_max x xs) xs.
Proof.
  unfold list_max. revert x. induction xs as [|b xs IH]; intros x; simpl.
  - split; [apply Qle_refl|constructor].
  - destruct (IH (if Qltb x b then b else x)) as [H1 H2].
    destruct (Qltb x b) eqn:E.
    + apply Qltb_true in E. split; [apply Qle_trans with b; [apply Qlt_le_weak, E|exact H1]|].
      constructor; assumption.
    + apply Qltb_false in E. split; [exact H1|].
      constructor; [apply Qle_trans with x; assumption|assumption].
Qed.

Lemma max_drawdown_of_nonpos v0 vs : max_drawdown_of v0 vs <= 0.
Proof.
  unfold max_drawdown_of. simpl.
  assert (Hp : (if Qltb v0 v0 then v0 else v0) = v0) by (destruct (Qltb v0 v0); reflexivity).
  rewrite Hp. destruct (list_min_le ((v0 - v0) / v0 * 100) (drawdowns v0 vs)) as [H _].
  apply Qle_trans with ((v0 - v0) / v0 * 100); [exact H|].
  assert (Hz : (v0 - v0) / v0 * 100 == 0) by (unfold Qdiv; ring).
  rewrite Hz. apply Qle_refl.
Qed.

(** The report of [_calculate_results]: the maximum drawdown is never
    positive, and every portfolio value of the equity curve, in particular
    the final value, lies between [min_value] and [max_value]. *)
Theorem calculate_results_value_bounds eng logs market_data strategy r :
  calculate_results eng logs market_data strategy = Some r ->
  r.(max_drawdown) <= 0 /\
  r.(min_value) <= r.(final_value) /\ r.(final_value) <= r.(max_value) /\
  Forall (fun s => r.(min_value) <= s.(snap_portfolio_value) <= r.(max_value))
    r.(rep_portfolio_values).
Proof.
  unfold calculate_results. destruct (log_values logs) as [|first rest] eqn:E; [discriminate|].
  intros Hr. injection Hr as <-. simpl.
  destruct (list_min_le (snap_portfolio_value first) (map snap_portfolio_value rest)) as [Hm1 Hm2].
  destruct (list_max_ge (snap_portfolio_value first) (map snap_portfolio_value rest)) as [HM1 HM2].
  rewrite Forall_map in Hm2, HM2.
  assert (Hall : Forall (fun s => list_min (snap_portfolio_value first) (map snap_portfolio_value rest)
                     <= snap_portfolio_value s <=
                     list_max (snap_portfolio_value first) (map snap_portfolio_value rest))
                   (first :: rest)).
  { constructor; [split; assumption|]. apply Forall_and; split; assumption. }
  assert (Hlast : default first (last (first :: rest)) ∈ first :: rest).
  { destruct (last (first :: rest)) eqn:L; simpl; [|left].
    apply last_Some_elem_of. exact L. }
  rewrite Forall_forall in Hall. destruct (Hall _ Hlast) as [Hl1 Hl2].
  split; [apply max_drawdown_of_nonpos|]. split; [exact Hl1|]. split; [exact Hl2|].
  rewrite Forall_forall. exact Hall.
Qed.

Lemma filter_length_disjoint {A} (P1 P2 : A -> Prop)
    `{forall x, Decision (P1 x)} `{forall x, Decision (P2 x)} (l : list A) :
  (forall x, P1 x -> P2 x -> False) ->
  (length (filter P1 l) + length (filter P2 l) <= length l)%nat.
Proof.
  intros Hd. induction l as [|x l IH]; simpl; [lia|].
  rewrite !filter_cons. destruct (decide (P1 x)), (decide (P2 x)); simpl;
    [exfalso; eauto| lia | lia | lia].
Qed.

Lemma signal_counts (sigs : list SignalRow) :
  (length (filter (fun r => r.(sr_signal) = S_BUY) sigs) +
   length (filter (fun r => r.(sr_signal) = S_SELL) sigs) +
   length (filter (fun r => r.(sr_signal) = S_HOLD) sigs) = length sigs)%nat.
Proof.
  induction sigs as [|x l IH]; simpl; [lia|].
  rewrite !filter_cons. destruct (sr_signal x); simpl; lia.
Qed.

Lemma ratio_bounds (a b : nat) :
  (a <= b)%nat -> (0 < b)%nat ->
  0 <= inject_Z (Z.of_nat a) / inject_Z (Z.of_nat b) <= 1.
Proof.
  intros Hab Hb.
  assert (Hb' : 0 < inject_Z (Z.of_nat b)) by (change 0 with (inject_Z 0); rewrite <- Zlt_Qlt; lia).
  assert (Ha' : 0 <= inject_Z (Z.of_nat a)) by (change 0 with (inject_Z 0); rewrite <- Zle_Qle; lia).
  assert (Hle : inject_Z (Z.of_nat a) <= inject_Z (Z.of_nat b)) by (rewrite <- Zle_Qle; lia).
  split.
  - apply Qle_shift_div_l; [exact Hb'|]. rewrite Qmult_0_l. exact Ha'.
  - apply Qle_shift_div_r; [exact Hb'|]. rewrite Qmult_1_l. exact Hle.
Qed.

Lemma ratio_pct_bounds (a b : nat) :
  (a <= b)%nat -> (0 < b)%nat ->
  0 <= inject_Z (Z.of_nat a) / inject_Z (Z.of_nat b) * 100 <= 100.
Proof.
  intros Hab Hb. destruct (ratio_bounds a b Hab Hb) as [H1 H2]. split.
  - apply Qmult_le_0_compat; [exact H1|discriminate].
  - apply Qle_trans with (1 * 100); [|apply Qle_bool_imp_le; reflexivity].
    apply Qmult_le_compat_r; [exact H2|discriminate].
Qed.

(** The report of [_calculate_results]: the BUY, SELL and HOLD signal counts
    add up to the number of signals; winning and losing trades together are
    at most all trades; the win rate is a percentage between 0 and 100. *)
Theorem calculate_results_counts eng logs market_data strategy r :
  calculate_results eng logs market_data strategy = Some r ->
  (r.(buy_signals) + r.(sell_signals) + r.(hold_signals) = r.(total_signals))%nat /\
  (r.(winning_trades) + r.(losing_trades) <= r.(total_trades))%nat /\
  0 <= r.(win_rate) <= 100.
Proof.
  unfold calculate_results. destruct (log_values logs) as [|first rest]; [discriminate|].
  intros Hr. injection Hr as <-. simpl. split; [apply signal_counts|].
  unfold trade_stats. destruct (log_trades logs) as [|t ts] eqn:E; simpl.
  - split; [lia|split; discriminate].
  - split.
    + apply (filter_length_disjoint (fun t => row_pnl_gt0 t = true) (fun t => row_pnl_lt0 t = true) (t :: ts)).
      intros x. unfold row_pnl_gt0, row_pnl_lt0. destruct (row_pnl x) as [[p|]|]; try discriminate.
      intros H1 H2. apply Qgtb_true in H1. apply Qltb_true in H2.
      apply (Qlt_irrefl p). apply Qlt_trans with 0; assumption.
    + apply ratio_pct_bounds; [|simpl; lia].
      apply (length_filter _ (t :: ts)).
Qed.

(** [Portfolio.get_metrics] raises [ZeroDivisionError] when the initial
    capital is 0; otherwise its total PnL is realized plus unrealized PnL,
    and on a ledger that satisfies the conservation law it equals total
    value minus initial capital, with the total return percentage equal to
    [total_pnl / initial_capital * 100]; the win rate is a fraction between
    0 and 1, and winning plus losing trades are at most all trades. *)
Theorem get_metrics_spec (pf : Portfolio) :
  (pf.(initial_capital) == 0 -> get_metrics pf = Err ZeroDivisionError) /\
  forall m, get_metrics pf = Ok m ->
    m.(pm_total_pnl) == sum_realized_pnl pf + sum_unrealized_pnl pf /\
    (conserved pf -> m.(pm_total_pnl) == m.(pm_total_value) - pf.(initial_capital) /\
                     m.(pm_total_return_pct) == m.(pm_total_pnl) / pf.(initial_capital) * 100) /\
    0 <= m.(pm_win_rate) <= 1 /\
    (m.(pm_num_winning_trades) + m.(pm_num_losing_trades) <= length pf.(trade_history))%nat.
Proof.
  unfold get_metrics. split.
  - intros H. apply Qeq_bool_iff in H. rewrite H. reflexivity.
  - intros m. destruct (Qeq_bool (initial_capital pf) 0) eqn:Z0; [discriminate|].
    intros Hm. injection Hm as <-. simpl.
    split; [apply Qeq_refl|]. split.
    + unfold conserved. intros Hc. split.
      * rewrite Hc. ring.
      * rewrite Hc. unfold Qdiv. ring.
    + split.
      * destruct (trade_history pf) as [|t ts] eqn:E; [split; discriminate|].
        apply (ratio_bounds _ (length (t :: ts)) (length_filter _ (t :: ts))). simpl; lia.
      * apply (filter_length_disjoint (fun t => Qgtb (tr_pnl t) 0 = true)
                 (fun t => Qltb (tr_pnl t) 0 = true)).
        intros x H1 H2. apply Qgtb_true in H1. apply Qltb_true in H2.
        apply (Qlt_irrefl (tr_pnl x)). apply Qlt_trans with 0; assumption.
Qed.

(** [BaseStrategy.calculate_position_size] never exceeds 10% of the
    account balance nor [position_size * confidence], and is one of the
    two. *)
Theorem base_position_size_bounds position_size balance price sg :
  let sz := base_calculate_position_size position_size balance price sg in
  sz <= balance * (1 # 10) /\ sz <= position_size * sg.(confidence) /\
  (sz = balance * (1 # 10) \/ sz = position_size * sg.(confidence)).
Proof.
  cbn zeta. unfold base_calculate_position_size, pymin.
  destruct (Qltb _ _) eqn:E.
  - apply Qltb_true in E. split; [apply Qle_refl|]. split; [apply Qlt_le_weak, E|left; reflexivity].
  - apply Qltb_false in E. split; [exact E|]. split; [apply Qle_refl|right; reflexivity].
Qed.

(** [BaseStrategy.should_exit_position] as price levels, for a positive
    entry price: a long exits with [stop_loss] at or below
    [entry * (1 - stop_loss_pct)], otherwise with [take_profit] at or above
    [entry * (1 + take_profit_pct)]; a short exits with [stop_loss] at or
    above [entry * (1 + stop_loss_pct)], otherwise with [take_profit] at or
    below [entry * (1 - take_profit_pct)]; otherwise no exit. *)
Theorem base_should_exit_levels stop take data e c :
  0 < e ->
  (base_should_exit_position stop take data e c BUY =
     if Qle_bool c (e * (1 - stop)) then Ok (true, "stop_loss")
     else if Qle_bool (e * (1 + take)) c then Ok (true, "take_profit")
     else Ok (false, "")) /\
  (base_should_exit_position stop take data e c SELL =
     if Qle_bool (e * (1 + stop)) c then Ok (true, "stop_loss")
     else if Qle_bool c (e * (1 - take)) then Ok (true, "take_profit")
     else Ok (false, "")).
Proof.
  intros He. unfold base_should_exit_position.
  assert (Hz : Qeq_bool e 0 = false).
  { destruct (Qeq_bool e 0) eqn:E; [|reflexivity]. apply Qeq_bool_eq in E.
    rewrite E in He. discriminate. }
  rewrite Hz.
  assert (Hiff : forall x y z w, (x <= y <-> z <= w) -> Qle_bool x y = Qle_bool z w).
  { intros x y z w H. destruct (Qle_bool z w) eqn:E.
    - apply Qle_bool_iff, H, Qle_bool_iff, E.
    - destruct (Qle_bool x y) eqn:E'; [|reflexivity].
      apply Qle_bool_iff, H, Qle_bool_iff in E'. congruence. }
  assert (Hne : ~ e == 0) by (intros H; rewrite H in He; discriminate).
  assert (Hu : c == e * ((c - e) / e) + e) by (field; exact Hne).
  assert (Hv : c == e - e * ((e - c) / e)) by (field; exact Hne).
  set (u := (c - e) / e) in *. set (v := (e - c) / e) in *.
  split.
  - rewrite (Hiff u (- stop) c (e * (1 - stop))) by (rewrite Hu; split; intros; nra).
    rewrite (Hiff take u (e * (1 + take)) c) by (rewrite Hu; split; intros; nra).
    reflexivity.
  - rewrite (Hiff v (- stop) (e * (1 + stop)) c) by (rewrite Hv; split; intros; nra).
    rewrite (Hiff take v c (e * (1 - take))) by (rewrite Hv; split; intros; nra).
    reflexivity.
Qed.

(** [_execute_signal] never opens a short: a SELL or HOLD signal when the
    product has no long position returns no trade and leaves the ledger
    unchanged. *)
Theorem execute_signal_never_opens_short eng sg pid price ts strategy now (pf : Portfolio) :
  sg.(signal) <> S_BUY ->
  (forall pos, pf.(positions) !! pid = Some pos -> pos.(side) = SELL) ->
  execute_signal eng sg pid price ts strategy now pf = (Ok None, pf).
Proof.
  intros Hsig Hpos. unfold execute_signal, catch, mbind, M_bind, gets, mret, M_ret.
  destruct (signal sg); [congruence| |reflexivity].
  destruct (Qltb _ 10); [reflexivity|]. unfold get_position.
  destruct (positions pf !! pid) as [pos|] eqn:E; [|reflexivity].
  rewrite (Hpos pos eq_refl). reflexivity.
Qed.

Lemma add_position_buy_ok_cash (pf : Portfolio) pid q p ts now :
  (forall pos, pf.(positions) !! pid = Some pos -> pos.(side) = BUY) ->
  (exists pos, fst (add_position pid BUY q p ts now pf) = Ok pos) ->
  (snd (add_position pid BUY q p ts now pf)).(cash_balance) == pf.(cash_balance) - q * p /\
  (snd (add_position pid BUY q p ts now pf)).(trade_history) = pf.(trade_history).
Proof.
  intros Hpos [pos0 Hok]. revert Hok.
  unfold add_position, mbind, M_bind, get_state, raise.
  destruct (_ && _)%bool; [discriminate|]. destruct (Qgtb _ _); [discriminate|].
  destruct (positions pf !! pid) as [ex|] eqn:E.
  - rewrite (Hpos ex eq_refl). simpl. unfold_M.
    destruct (Qeq_bool _ 0); [discriminate|]. simpl. rewrite lookup_insert_eq.
    intros _. simpl. split; [ring|reflexivity].
  - unfold_M. simpl. rewrite lookup_insert_eq. intros _. simpl. split; [ring|reflexivity].
Qed.

(** A BUY trade reported by [_execute_signal] (the product has no position
    or a long one) passed the commission-inclusive cash check, yet the
    ledger's cash is debited by the notional [value] only, and no trade
    record is added to the ledger's history. *)
Theorem execute_signal_buy_fill eng sg pid price ts strategy now (pf : Portfolio) row pf' :
  sg.(signal) = S_BUY ->
  (forall pos, pf.(positions) !! pid = Some pos -> pos.(side) = BUY) ->
  execute_signal eng sg pid price ts strategy now pf = (Ok (Some row), pf') ->
  exists size,
    row.(row_value) = Some size /\
    row.(row_commission) = Some (size * eng.(commission_rate)) /\
    size + size * eng.(commission_rate) <= pf.(cash_balance) /\
    pf'.(cash_balance) == pf.(cash_balance) - size /\
    pf'.(trade_history) = pf.(trade_history).
Proof.
  intros Hsig Hpos. unfold execute_signal, catch, gets, pydiv, mbind, M_bind, mret, M_ret, raise.
  rewrite Hsig.
  set (ep := execution_price_of eng S_BUY price).
  set (size := calculate_position_size strategy (cash_balance pf) ep sg).
  destruct (Qltb size 10); [intros H; inversion H|].
  destruct (Qeq_bool ep 0) eqn:Z0; [intros H; inversion H|].
  destruct (Qle_bool (size + size * commission_rate eng) (cash_balance pf)) eqn:Hc;
    [|intros H; inversion H].
  pose proof (add_position_buy_ok_cash pf pid (size / ep) ep (Some ts) now Hpos) as Hadd.
  simpl. destruct (add_position pid BUY (size / ep) ep (Some ts) now pf) as [[pos|e] s'] eqn:A;
    intros H; inversion H; subst. simpl in Hadd.
  destruct (Hadd (ex_intro _ pos eq_refl)) as [Hcash Hhist].
  exists size. split; [reflexivity|]. split; [reflexivity|].
  split; [apply Qle_bool_iff, Hc|]. split; [|exact Hhist].
  rewrite Hcash. field. intros Hz. apply Qeq_bool_iff in Hz. congruence.
Qed.

(** [run_backtest] raises [BacktestError] on empty data before resetting
    the ledger, and on data shorter than the strategy's required history
    after resetting it. *)
Theorem run_backtest_insufficient_data eng strategy market_data pid clock pf :
  (market_data = [] ->
     run_backtest eng strategy market_data pid clock pf = (Err BacktestError, pf)) /\
  (market_data <> [] -> (length market_data < strategy.(get_required_history))%nat ->
     run_backtest eng strategy market_data pid clock pf = (Err BacktestError, reset pf)).
Proof.
  split.
  - intros ->. reflexivity.
  - intros Hne Hlt. unfold run_backtest, catch.
    destruct market_data as [|b bs]; [congruence|].
    unfold mbind, M_bind, modify. simpl.
    assert (Hb : Nat.ltb (S (length bs)) (get_required_history strategy) = true)
      by (apply Nat.ltb_lt; exact Hlt).
    rewrite Hb. reflexivity.
Qed.

Lemma filter_by_date_range_iff data start_date end_date b :
  b ∈ filter_by_date_range data start_date end_date <->
  b ∈ data /\
  (forall sd, start_date = Some sd -> (sd <= b.(bar_time))%Z) /\
  (forall ed, end_date = Some ed -> (b.(bar_time) <= ed)%Z).
Proof.
  unfold filter_by_date_range.
  destruct start_date as [sd|], end_date as [ed|];
    (rewrite ?list_elem_of_filter, ?list_elem_of_filter;
     split; [intros H|intros (H1 & H2 & H3)]).
  - destruct H as [He [Hs Hd]]. apply Z.leb_le in He, Hs.
    split; [exact Hd|]. split; intros x [= <-]; assumption.
  - rewrite !Z.leb_le. split; [apply H3; reflexivity|]. split; [apply H2; reflexivity|exact H1].
  - destruct H as [Hs Hd]. apply Z.leb_le in Hs.
    split; [exact Hd|]. split; intros x Hx; [injection Hx as <-; exact Hs|discriminate].
  - rewrite Z.leb_le. split; [apply H2; reflexivity|exact H1].
  - destruct H as [He Hd]. apply Z.leb_le in He.
    split; [exact Hd|]. split; intros x Hx; [discriminate|injection Hx as <-; exact He].
  - rewrite Z.leb_le. split; [apply H3; reflexivity|exact H1].
  - split; [exact H|]. split; intros x Hx; discriminate.
  - exact H1.
Qed.

(** [run_backtest] with a date range that contains no row of the data
    raises [BacktestError] without touching the ledger. *)
Theorem run_backtest_range_empty eng strategy market_data pid start_date end_date clock pf :
  (start_date <> None \/ end_date <> None) ->
  (forall b, b ∈ market_data ->
     (exists sd, start_date = Some sd /\ (b.(bar_time) < sd)%Z) \/
     (exists ed, end_date = Some ed /\ (ed < b.(bar_time))%Z)) ->
  run_backtest_range eng strategy market_data pid start_date end_date clock pf =
    (Err BacktestError, pf).
Proof.
  intros Hsome Hout. unfold run_backtest_range.
  assert (Hnil : filter_by_date_range market_data start_date end_date = []).
  { destruct (filter_by_date_range market_data start_date end_date) as [|b bs] eqn:E;
      [reflexivity|].
    assert (Hb : b ∈ filter_by_date_range market_data start_date end_date)
      by (rewrite E; left).
    apply filter_by_date_range_iff in Hb as (Hin & Hs & He).
    destruct (Hout b Hin) as [[sd [Hsd Hlt]]|[ed [Hed Hlt]]].
    - specialize (Hs sd Hsd). lia.
    - specialize (He ed Hed). lia. }
  destruct start_date, end_date; try (destruct Hsome; congruence);
    rewrite Hnil; reflexivity.
Qed.

Definition ok_post {A} (P : A -> Prop) (m : M A) : Prop :=
  forall s a s', m s = (Ok a, s') -> P a.

Lemma ok_post_ret {A} (P : A -> Prop) a : P a -> ok_post P (mret a).
Proof. intros H s b s' E. injection E as <- _. exact H. Qed.
Lemma ok_post_raise {A} (P : A -> Prop) e : ok_post P (raise e).
Proof. intros s b s' E. discriminate. Qed.
Lemma ok_post_bind {A B} (R : A -> Prop) (P : B -> Prop) (m : M A) (f : A -> M B) :
  ok_post R m -> (forall a, R a -> ok_post P (f a)) -> ok_post P (m ≫= f).
Proof.
  intros Hm Hf s b s' E. unfold mbind, M_bind in E.
  destruct (m s) as [[a|e] s1] eqn:Em; [|discriminate].
  exact (Hf a (Hm s a s1 Em) s1 b s' E).
Qed.
Lemma ok_post_bind_any {A B} (P : B -> Prop) (m : M A) (f : A -> M B) :
  (forall a, ok_post P (f a)) -> ok_post P (m ≫= f).
Proof.
  intros Hf. apply (ok_post_bind (fun _ => True)); [intros s a s' _; exact I|intros a _; apply Hf].
Qed.

Ltac post_step :=
  match goal with
  | |- ok_post _ (mret _) => apply ok_post_ret
  | |- ok_post _ (raise _) => apply ok_post_raise
  | |- ok_post _ (_ ≫= _) => apply ok_post_bind_any; intro
  | |- ok_post _ (if ?b then _ else _) => destruct b
  | |- ok_post _ (match ?x with _ => _ end) => destruct x
  end.

Lemma backtest_step_logs eng strategy market_data pid clock acc i :
  ok_post (fun acc' =>
    (exists snap, acc'.(log_values) = acc.(log_values) ++ [snap]) /\
    (length acc'.(log_signals) <= S (length acc.(log_signals)))%nat)
    (backtest_step eng strategy market_data pid clock acc i).
Proof.
  unfold backtest_step. cbn zeta. repeat post_step; repeat case_match; simpl;
    (split; [eexists; reflexivity|rewrite ?length_app; simpl; lia]).
Qed.

Lemma backtest_loop_logs eng strategy market_data pid clock idx acc :
  ok_post (fun l =>
    length l.(log_values) = (length acc.(log_values) + length idx)%nat /\
    (length l.(log_signals) <= length acc.(log_signals) + length idx)%nat)
    (backtest_loop eng strategy market_data pid clock idx acc).
Proof.
  revert acc. induction idx as [|i idx IH]; intros acc; simpl.
  - apply ok_post_ret. lia.
  - eapply ok_post_bind; [apply backtest_step_logs|].
    intros a [[snap Hv] Hs]. intros s l s' E. destruct (IH a s l s' E) as [H1 H2].
    rewrite Hv, length_app in H1. simpl in H1. split; lia.
Qed.

Lemma length_pct_change (vs : list Q) : length (pct_change vs) = (length vs - 1)%nat.
Proof.
  induction vs as [|a t IH]; [reflexivity|].
  destruct t as [|b t']; [reflexivity|].
  change (length (pct_change (a :: b :: t'))) with (S (length (pct_change (b :: t')))).
  rewrite IH. simpl. lia.
Qed.

(** A successful [run_backtest] had more rows than the required history,
    and its equity curve has one entry per backtested bar
    ([len(data) - min_history]), at most that many signals, and one return
    fewer than entries. *)
Theorem run_backtest_equity_curve eng strategy market_data pid clock pf r pf' :
  run_backtest eng strategy market_data pid clock pf = (Ok r, pf') ->
  let n := (length market_data - strategy.(get_required_history))%nat in
  (strategy.(get_required_history) < length market_data)%nat /\
  length r.(rep_portfolio_values) = n /\
  (length r.(rep_signals) <= n)%nat /\
  length r.(rep_returns) = (n - 1)%nat.
Proof.
  intros Hrun. cbn zeta. unfold run_backtest, catch in Hrun.
  destruct market_data as [|b bs]; [discriminate|].
  unfold mbind, M_bind, modify in Hrun. simpl in Hrun.
  destruct (Nat.ltb (S (length bs)) (get_required_history strategy)) eqn:Hlt; [discriminate|].
  apply Nat.ltb_ge in Hlt.
  destruct (backtest_loop eng strategy (b :: bs) pid clock
              (seq (get_required_history strategy) (S (length bs) - get_required_history strategy))
              empty_logs (reset pf)) as [[l|e] s1] eqn:El; [|discriminate].
  destruct (backtest_loop_logs eng strategy (b :: bs) pid clock
              (seq (get_required_history strategy) (S (length bs) - get_required_history strategy))
              empty_logs (reset pf) l s1 El) as [Hv Hs].
  rewrite length_seq in Hv, Hs. simpl in Hv, Hs.
  destruct (calculate_results eng l (b :: bs) strategy) as [rep|] eqn:Ec; [|discriminate].
  injection Hrun as <- _.
  unfold calculate_results in Ec. destruct (log_values l) as [|first rest] eqn:Evals;
    [discriminate|]. injection Ec as <-. cbn [rep_returns rep_portfolio_values rep_signals].
  pose proof (length_pct_change (map snap_portfolio_value (first :: rest))) as Hp.
  simpl in Hp, Hv |- *. rewrite Hp, length_map.
  split; [lia|]. split; [lia|]. split; lia.
Qed.

(** ** Witnesses of the further properties *)

(** A long of 10 BTC at 100 and 9000 in cash; closing ETH does nothing. *)
Lemma close_position_absent_witness :
  let pf := mkPortfolio 10000 9000
              {[ "BTC-USD" := new_Position "BTC-USD" BUY 10 100 0 ]} [] 1000 in
  pf.(positions) !! "ETH-USD" = None /\
  close_position "ETH-USD" 120 5 pf = (Ok None, pf).
Proof.
  cbn zeta. split; [reflexivity|]. apply close_position_absent. reflexivity.
Defined.

(** Closing the long of 10 at 120 returns the PnL 200 and credits 1200. *)
Lemma close_position_present_witness :
  let pos := new_Position "BTC-USD" BUY 10 100 0 in
  let pf := mkPortfolio 10000 9000 {[ "BTC-USD" := pos ]} [] 1000 in
  pf.(positions) !! "BTC-USD" = Some pos /\
  ~ pos.(entry_price) * pos.(quantity) == 0 /\
  fst (close_position "BTC-USD" 120 5 pf) = Ok (Some (calculate_pnl pos 120 10)) /\
  (snd (close_position "BTC-USD" 120 5 pf)).(cash_balance) = 9000 + 10 * 120.
Proof.
  cbn zeta.
  assert (H1 : ({[ "BTC-USD" := new_Position "BTC-USD" BUY 10 100 0 ]} : gmap string Position)
                 !! "BTC-USD" = Some (new_Position "BTC-USD" BUY 10 100 0)) by reflexivity.
  assert (H2 : ~ entry_price (new_Position "BTC-USD" BUY 10 100 0)
                 * quantity (new_Position "BTC-USD" BUY 10 100 0) == 0)
    by (vm_compute; discriminate).
  destruct (close_position_present (mkPortfolio 10000 9000
              {[ "BTC-USD" := new_Position "BTC-USD" BUY 10 100 0 ]} [] 1000)
              "BTC-USD" 120 5 _ H1 H2) as (Hr & _ & _ & Hc & _).
  split; [exact H1|]. split; [exact H2|]. split; [exact Hr|exact Hc].
Defined.

(** A long of quantity 0 cannot be closed. *)
Lemma close_position_zero_cost_witness :
  let pos := new_Position "BTC-USD" BUY 0 100 0 in
  let pf := mkPortfolio 10000 9000 {[ "BTC-USD" := pos ]} [] 1000 in
  pf.(positions) !! "BTC-USD" = Some pos /\
  pos.(entry_price) * pos.(quantity) == 0 /\
  close_position "BTC-USD" 120 5 pf = (Err ZeroDivisionError, pf).
Proof.
  cbn zeta. split; [reflexivity|]. split; [reflexivity|].
  apply close_position_zero_cost with (pos := new_Position "BTC-USD" BUY 0 100 0);
    reflexivity.
Defined.

(** Buying 5 at 100 on an empty ledger with 10000 in cash. *)
Lemma add_position_open_witness :
  let pf := mkPortfolio 10000 10000 ∅ [] 1000 in
  pf.(positions) !! "BTC-USD" = None /\
  (BUY = BUY -> 5 * 100 <= pf.(cash_balance)) /\ 5 * 100 <= pf.(max_position_size) /\
  fst (add_position "BTC-USD" BUY 5 100 (Some 7%Z) 8 pf) =
    Ok (new_Position "BTC-USD" BUY 5 100 7).
Proof.
  cbn zeta.
  assert (Hc : BUY = BUY -> 5 * 100 <= 10000) by (intros _; apply Qle_bool_imp_le; reflexivity).
  assert (Hm : 5 * 100 <= 1000) by (apply Qle_bool_imp_le; reflexivity).
  assert (H0 : (∅ : gmap string Position) !! "BTC-USD" = None) by reflexivity.
  split; [exact H0|]. split; [exact Hc|]. split; [exact Hm|].
  rewrite (add_position_open (mkPortfolio 10000 10000 ∅ [] 1000) "BTC-USD" BUY 5 100
             (Some 7%Z) 8 H0 Hc Hm).
  reflexivity.
Defined.

(** Adding 5 at 110 to a long of 10 at 100. *)
Lemma add_position_same_side_witness :
  let ex := new_Position "BTC-USD" BUY 10 100 0 in
  let pf := mkPortfolio 10000 9000 {[ "BTC-USD" := ex ]} [] 1000 in
  pf.(positions) !! "BTC-USD" = Some ex /\ ex.(side) = BUY /\
  (BUY = BUY -> 5 * 110 <= pf.(cash_balance)) /\ 5 * 110 <= pf.(max_position_size) /\
  ~ ex.(quantity) + 5 == 0 /\
  exists pos, fst (add_position "BTC-USD" BUY 5 110 None 8 pf) = Ok pos /\
    pos.(quantity) = 10 + 5 /\ pos.(entry_price) * pos.(quantity) == 10 * 100 + 5 * 110.
Proof.
  cbn zeta.
  assert (H1 : ({[ "BTC-USD" := new_Position "BTC-USD" BUY 10 100 0 ]} : gmap string Position)
                 !! "BTC-USD" = Some (new_Position "BTC-USD" BUY 10 100 0)) by reflexivity.
  assert (Hc : BUY = BUY -> 5 * 110 <= 9000) by (intros _; apply Qle_bool_imp_le; reflexivity).
  assert (Hm : 5 * 110 <= 1000) by (apply Qle_bool_imp_le; reflexivity).
  assert (Hz : ~ quantity (new_Position "BTC-USD" BUY 10 100 0) + 5 == 0)
    by (vm_compute; discriminate).
  do 5 (split; [assumption || reflexivity|]).
  destruct (add_position_same_side (mkPortfolio 10000 9000
              {[ "BTC-USD" := new_Position "BTC-USD" BUY 10 100 0 ]} [] 1000)
              "BTC-USD" BUY 5 110 None 8 _ H1 eq_refl Hc Hm Hz)
    as (pos & Heq & Hq & He & _).
  exists pos. rewrite Heq. split; [reflexivity|]. split; [exact Hq|exact He].
Defined.

(** Selling 4 at 110 out of a long of 10 at 100. *)
Lemma add_position_partial_close_witness :
  let ex := new_Position "BTC-USD" BUY 10 100 0 in
  let pf := mkPortfolio 10000 9000 {[ "BTC-USD" := ex ]} [] 1000 in
  pf.(positions) !! "BTC-USD" = Some ex /\ ex.(side) <> SELL /\
  (SELL = BUY -> 4 * 110 <= pf.(cash_balance)) /\ 4 * 110 <= pf.(max_position_size) /\
  4 < ex.(quantity) /\ ~ ex.(entry_price) * 4 == 0 /\
  fst (add_position "BTC-USD" SELL 4 110 None 8 pf) =
    Ok (set_realized_pnl (set_quantity ex (10 - 4)) (0 + calculate_pnl ex 110 4)).
Proof.
  cbn zeta.
  assert (H1 : ({[ "BTC-USD" := new_Position "BTC-USD" BUY 10 100 0 ]} : gmap string Position)
                 !! "BTC-USD" = Some (new_Position "BTC-USD" BUY 10 100 0)) by reflexivity.
  assert (Hs : side (new_Position "BTC-USD" BUY 10 100 0) <> SELL) by discriminate.
  assert (Hc : SELL = BUY -> 4 * 110 <= 9000) by discriminate.
  assert (Hm : 4 * 110 <= 1000) by (apply Qle_bool_imp_le; reflexivity).
  assert (Hl : 4 < quantity (new_Position "BTC-USD" BUY 10 100 0)) by reflexivity.
  assert (Hz : ~ entry_price (new_Position "BTC-USD" BUY 10 100 0) * 4 == 0)
    by (vm_compute; discriminate).
  do 6 (split; [assumption|]).
  rewrite (add_position_partial_close (mkPortfolio 10000 9000
              {[ "BTC-USD" := new_Position "BTC-USD" BUY 10 100 0 ]} [] 1000)
              "BTC-USD" SELL 4 110 None 8 _ H1 Hs Hc Hm Hl Hz).
  reflexivity.
Defined.

(** Selling exactly the 10 of a long at 90 raises [KeyError]. *)
Lemma add_position_exact_close_witness :
  let ex := new_Position "BTC-USD" BUY 10 100 0 in
  let pf := mkPortfolio 10000 9000 {[ "BTC-USD" := ex ]} [] 1000 in
  pf.(positions) !! "BTC-USD" = Some ex /\ ex.(side) <> SELL /\
  (SELL = BUY -> 10 * 90 <= pf.(cash_balance)) /\ 10 * 90 <= pf.(max_position_size) /\
  10 == ex.(quantity) /\ ~ ex.(entry_price) * ex.(quantity) == 0 /\
  fst (add_position "BTC-USD" SELL 10 90 None 8 pf) = Err KeyError /\
  (snd (add_position "BTC-USD" SELL 10 90 None 8 pf)).(positions) = ∅.
Proof.
  cbn zeta.
  assert (H1 : ({[ "BTC-USD" := new_Position "BTC-USD" BUY 10 100 0 ]} : gmap string Position)
                 !! "BTC-USD" = Some (new_Position "BTC-USD" BUY 10 100 0)) by reflexivity.
  assert (Hs : side (new_Position "BTC-USD" BUY 10 100 0) <> SELL) by discriminate.
  assert (Hc : SELL = BUY -> 10 * 90 <= 9000) by discriminate.
  assert (Hm : 10 * 90 <= 1000) by (apply Qle_bool_imp_le; reflexivity).
  assert (Hq : 10 == quantity (new_Position "BTC-USD" BUY 10 100 0)) by reflexivity.
  assert (Hz : ~ entry_price (new_Position "BTC-USD" BUY 10 100 0)
                 * quantity (new_Position "BTC-USD" BUY 10 100 0) == 0)
    by (vm_compute; discriminate).
  do 6 (split; [assumption|]).
  rewrite (add_position_exact_close (mkPortfolio 10000 9000
              {[ "BTC-USD" := new_Position "BTC-USD" BUY 10 100 0 ]} [] 1000)
              "BTC-USD" SELL 10 90 None 8 _ H1 Hs Hc Hm Hq Hz).
  split; [reflexivity|]. simpl. apply delete_singleton_eq.
Defined.

(** A run of a strategy that always signals BUY with confidence 0.9, on
    three daily bars. *)
Lemma run_backtest_engine_inv_witness :
  let strat := mkStrategy "always_buy" 1
                 (fun _ => Ok (mkTradingSignal S_BUY (9 # 10) None None []))
                 (base_calculate_position_size 100)
                 (base_should_exit_position (5 # 100) (1 # 10)) [] in
  let data := [mkBar 0 100 100 100 100 1; mkBar 86400 101 101 101 101 1;
               mkBar 172800 102 102 102 102 1] in
  data <> [] /\
  engine_inv "BTC-USD"
    (snd (run_backtest (mkEngine 10000 (1 # 1000) (5 # 10000)) strat data "BTC-USD"
            (fun _ => 0%Z) (new_Portfolio 10000 default_max_position_size))).
Proof.
  cbn zeta. split; [discriminate|]. apply run_backtest_engine_inv. discriminate.
Defined.

(** Two snapshots, 10000 then 9900, and one winning closing trade. *)
Lemma calculate_results_value_bounds_witness :
  let strat := mkStrategy "always_buy" 1
                 (fun _ => Ok (mkTradingSignal S_BUY (9 # 10) None None []))
                 (base_calculate_position_size 100)
                 (base_should_exit_position (5 # 100) (1 # 10)) [] in
  let logs := mkLogs [mkSnapshot 0 10000 10000 0; mkSnapshot 86400 9900 9000 900]
                [mkSignalRow 0 S_BUY (9 # 10) 100 []]
                [mkTradeRow 86400 A_CLOSE "BTC-USD" 99 10 None None (Some (Some 5))
                   None (Some "stop_loss")] in
  let data := [mkBar 0 100 100 100 100 1; mkBar 86400 99 99 99 99 1] in
  exists r, calculate_results (mkEngine 10000 0 0) logs data strat = Some r /\
    r.(max_drawdown) <= 0 /\ r.(min_value) <= r.(final_value) <= r.(max_value).
Proof.
  cbn zeta.
  destruct (calculate_results (mkEngine 10000 0 0) _ _ _) as [r|] eqn:E.
  - exists r. split; [reflexivity|].
    destruct (calculate_results_value_bounds _ _ _ _ r E) as (H1 & H2 & H3 & _).
    split; [exact H1|split; assumption].
  - vm_compute in E. discriminate.
Defined.

Lemma calculate_results_counts_witness :
  let strat := mkStrategy "always_buy" 1
                 (fun _ => Ok (mkTradingSignal S_BUY (9 # 10) None None []))
                 (base_calculate_position_size 100)
                 (base_should_exit_position (5 # 100) (1 # 10)) [] in
  let logs := mkLogs [mkSnapshot 0 10000 10000 0; mkSnapshot 86400 9900 9000 900]
                [mkSignalRow 0 S_BUY (9 # 10) 100 []; mkSignalRow 86400 S_HOLD (1 # 10) 99 []]
                [mkTradeRow 86400 A_CLOSE "BTC-USD" 99 10 None None (Some (Some 5))
                   None (Some "stop_loss")] in
  let data := [mkBar 0 100 100 100 100 1; mkBar 86400 99 99 99 99 1] in
  exists r, calculate_results (mkEngine 10000 0 0) logs data strat = Some r /\
    (r.(buy_signals) + r.(sell_signals) + r.(hold_signals) = r.(total_signals))%nat /\
    0 <= r.(win_rate) <= 100.
Proof.
  cbn zeta.
  destruct (calculate_results (mkEngine 10000 0 0) _ _ _) as [r|] eqn:E.
  - exists r. split; [reflexivity|].
    destruct (calculate_results_counts _ _ _ _ r E) as (H1 & _ & H3).
    split; assumption.
  - vm_compute in E. discriminate.
Defined.

(** Entry 100, stop 5%, take 10%: a long at 94 is stopped out. *)
Lemma base_should_exit_levels_witness :
  0 < 100 /\
  base_should_exit_position (5 # 100) (1 # 10) [] 100 94 BUY = Ok (true, "stop_loss").
Proof.
  assert (H : 0 < 100) by reflexivity. split; [exact H|].
  rewrite (proj1 (base_should_exit_levels (5 # 100) (1 # 10) [] 100 94 H)).
  reflexivity.
Defined.

(** A SELL signal on an empty ledger. *)
Lemma execute_signal_never_opens_short_witness :
  let strat := mkStrategy "always_sell" 1
                 (fun _ => Ok (mkTradingSignal S_SELL (9 # 10) None None []))
                 (base_calculate_position_size 100)
                 (base_should_exit_position (5 # 100) (1 # 10)) [] in
  let pf := new_Portfolio 10000 default_max_position_size in
  S_SELL <> S_BUY /\
  (forall pos, pf.(positions) !! "BTC-USD" = Some pos -> pos.(side) = SELL) /\
  execute_signal (mkEngine 10000 (1 # 1000) (5 # 10000))
    (mkTradingSignal S_SELL (9 # 10) None None []) "BTC-USD" 100 0 strat 0 pf = (Ok None, pf).
Proof.
  cbn zeta.
  assert (H1 : S_SELL <> S_BUY) by discriminate.
  assert (H2 : forall pos, positions (new_Portfolio 10000 default_max_position_size)
                             !! "BTC-USD" = Some pos -> side pos = SELL)
    by (intros pos H; discriminate).
  split; [exact H1|]. split; [exact H2|].
  apply execute_signal_never_opens_short; [simpl; exact H1|exact H2].
Defined.

(** A BUY signal of confidence 0.9 on an empty ledger fills 90 dollars. *)
Lemma execute_signal_buy_fill_witness :
  let strat := mkStrategy "always_buy" 1
                 (fun _ => Ok (mkTradingSignal S_BUY (9 # 10) None None []))
                 (base_calculate_position_size 100)
                 (base_should_exit_position (5 # 100) (1 # 10)) [] in
  let pf := new_Portfolio 10000 default_max_position_size in
  exists row pf',
    execute_signal (mkEngine 10000 (1 # 1000) (5 # 10000))
      (mkTradingSignal S_BUY (9 # 10) None None []) "BTC-USD" 100 0 strat 0 pf =
      (Ok (Some row), pf') /\
    exists size, row.(row_value) = Some size /\ pf'.(cash_balance) == 10000 - size.
Proof.
  cbn zeta.
  assert (H2 : forall pos, positions (new_Portfolio 10000 default_max_position_size)
                             !! "BTC-USD" = Some pos -> side pos = BUY)
    by (intros pos H; discriminate).
  destruct (execute_signal _ _ _ _ _ _ _ _) as [[[row|]|e] pf'] eqn:E.
  - exists row, pf'. split; [reflexivity|].
    pose proof (fun Hs => execute_signal_buy_fill _ _ _ _ _ _ _ _ row pf' Hs H2 E) as T.
    destruct (T eq_refl) as (size & Hv & _ & _ & Hc & _).
    exists size. split; [exact Hv|exact Hc].
  - vm_compute in E. discriminate.
  - vm_compute in E. discriminate.
Defined.

(** A start date after the only bar. *)
Lemma run_backtest_range_empty_witness :
  let strat := mkStrategy "always_buy" 1
                 (fun _ => Ok (mkTradingSignal S_BUY (9 # 10) None None []))
                 (base_calculate_position_size 100)
                 (base_should_exit_position (5 # 100) (1 # 10)) [] in
  let pf := new_Portfolio 10000 default_max_position_size in
  let data := [mkBar 0 100 100 100 100 1] in
  (Some 86400%Z <> None \/ (None : option Z) <> None) /\
  (forall b, b ∈ data ->
     (exists sd, Some 86400%Z = Some sd /\ (b.(bar_time) < sd)%Z) \/
     (exists ed, (None : option Z) = Some ed /\ (ed < b.(bar_time))%Z)) /\
  run_backtest_range (mkEngine 10000 0 0) strat data "BTC-USD" (Some 86400%Z) None
    (fun _ => 0%Z) pf = (Err BacktestError, pf).
Proof.
  cbn zeta.
  assert (H1 : Some 86400%Z <> None \/ (None : option Z) <> None) by (left; discriminate).
  assert (H2 : forall b, b ∈ [mkBar 0 100 100 100 100 1] ->
     (exists sd, Some 86400%Z = Some sd /\ (b.(bar_time) < sd)%Z) \/
     (exists ed, (None : option Z) = Some ed /\ (ed < b.(bar_time))%Z)).
  { intros b Hb. apply list_elem_of_singleton in Hb. subst b.
    left. exists 86400%Z. split; [reflexivity|simpl; lia]. }
  split; [exact H1|]. split; [exact H2|].
  apply run_backtest_range_empty; assumption.
Defined.

(** The always-BUY strategy on three bars with one bar of history. *)
Lemma run_backtest_equity_curve_witness :
  let strat := mkStrategy "always_buy" 1
                 (fun _ => Ok (mkTradingSignal S_BUY (9 # 10) None None []))
                 (base_calculate_position_size 100)
                 (base_should_exit_position (5 # 100) (1 # 10)) [] in
  let data := [mkBar 0 100 100 100 100 1; mkBar 86400 101 101 101 101 1;
               mkBar 172800 102 102 102 102 1] in
  exists r pf',
    run_backtest (mkEngine 10000 (1 # 1000) (5 # 10000)) strat data "BTC-USD"
      (fun _ => 0%Z) (new_Portfolio 10000 default_max_position_size) = (Ok r, pf') /\
    length r.(rep_portfolio_values) = 2%nat /\ length r.(rep_returns) = 1%nat.
Proof.
  cbn zeta.
  destruct (run_backtest _ _ _ _ _ _) as [[r|e] pf'] eqn:E.
  - exists r, pf'. split; [reflexivity|].
    destruct (run_backtest_equity_curve _ _ _ _ _ _ r pf' E) as (_ & Hv & _ & Hr).
    simpl in Hv, Hr. split; assumption.
  - vm_compute in E. discriminate.
Defined.
